(** * Flipkart product recommender: ingestion and conversational RAG chain

    A shallow embedding of [flipkart/data_converter.py],
    [flipkart/data_ingestion.py], [data/Improved/n_data_ingestion.py] and
    [flipkart/rag_chain.py].

    Python objects that are mutated in place (the [history_store] dict, the
    [ChatMessageHistory] objects it points to, the vector store collection)
    live in explicit state; exceptions are values of [exn] carried by
    [result].  The services behind the program (the Groq chat model, the
    AstraDB similarity search) are parameters of the development. *)

From Stdlib Require Import QArith.
From stdpp Require Import gmap strings list.

(** ** Python exceptions and results *)

Inductive exn :=
| TypeError (msg : string)
| KeyError (key : string)
| FileNotFoundError (path : string)
| EmptyDataError (msg : string)
| ParserError (msg : string)
| UnicodeDecodeError (msg : string)
| OSError (msg : string)
| ValidationError (field : string)
| ValueError (msg : string)
| ServiceError (msg : string).

Inductive result (A : Type) :=
| Ok (a : A)
| Raise (e : exn).
Arguments Ok {A} a.
Arguments Raise {A} e.

#[global] Instance result_ret : MRet result := λ A a, Ok a.
#[global] Instance result_bind : MBind result := λ A B k r,
  match r with
  | Ok a => k a
  | Raise e => Raise e
  end.

(** A list comprehension whose element expression may raise: the elements
    are evaluated left to right and the first exception escapes the whole
    comprehension. *)
Fixpoint comprehension {A B} (f : A → result B) (xs : list A) : result (list B) :=
  match xs with
  | [] => Ok []
  | x :: xs' =>
      match f x with
      | Raise e => Raise e
      | Ok y =>
          match comprehension f xs' with
          | Raise e => Raise e
          | Ok ys => Ok (y :: ys)
          end
      end
  end.

(** ** Call sites

    A call passes positional and keyword arguments; binding them to the
    callee's parameter names raises [TypeError] when they do not fit. *)

Record call_args := CallArgs {
  positional : list string;
  keywords : list (string * string)
}.

Fixpoint bind_positional (params : list string) (vals : list string)
  : option (list (string * string) * list string) :=
  match vals, params with
  | [], _ => Some ([], params)
  | _ :: _, [] => None
  | v :: vals', p :: params' =>
      match bind_positional params' vals' with
      | None => None
      | Some (bound, rest) => Some ((p, v) :: bound, rest)
      end
  end.

Fixpoint bind_keywords (fname : string) (params : list string)
    (bound : list (string * string)) (kws : list (string * string))
  : result (list (string * string)) :=
  match kws with
  | [] => Ok bound
  | (k, v) :: kws' =>
      if bool_decide (k ∈ params) then
        if bool_decide (k ∈ bound.*1) then
          Raise (TypeError (fname +:+ "() got multiple values for argument '" +:+ k +:+ "'"))
        else bind_keywords fname params (bound ++ [(k, v)]) kws'
      else
        Raise (TypeError (fname +:+ "() got an unexpected keyword argument '" +:+ k +:+ "'"))
  end.

(** Binding for a callee whose parameters are all required and may be given
    positionally or by keyword. *)
Definition bind_args (fname : string) (params : list string) (a : call_args)
  : result (list (string * string)) :=
  match bind_positional params (positional a) with
  | None => Raise (TypeError (fname +:+ "() takes too many positional arguments"))
  | Some (bound, _) =>
      match bind_keywords fname params bound (keywords a) with
      | Raise e => Raise e
      | Ok bound' =>
          match list_find (λ p, p ∉ bound'.*1) params with
          | Some (_, p) =>
              Raise (TypeError (fname +:+ "() missing required argument '" +:+ p +:+ "'"))
          | None => Ok bound'
          end
      end
  end.

Fixpoint assoc (k : string) (l : list (string * string)) : option string :=
  match l with
  | [] => None
  | (k', v) :: l' => if bool_decide (k = k') then Some v else assoc k l'
  end.

(** ** Tabular data

    What [pandas.read_csv] hands to the converter: named columns and rows of
    cells.  A cell has the value pandas infers for it: a string in a column
    of text; an integer, a float (the rational it denotes, or an infinity)
    or a boolean in a column pandas reads as such; [NaN] where the file has
    no value. *)

Inductive cell :=
| Text (s : string)
| Int (z : Z)
| Float (q : Q)
| Inf (negative : bool)
| Bool (b : bool)
| NaN.

(** Every row of a table has one cell for each column. *)
Record DataFrame := {
  columns : list string;
  rows : list (list cell);
  rectangular : forallb (λ r, length r =? length columns) rows = true
}.

(** One row as [iterrows] yields it: the labels and the values. *)
Record Series := {
  index : list string;
  values : list cell
}.

Fixpoint index_of (c : string) (cols : list string) : option nat :=
  match cols with
  | [] => None
  | c' :: cols' => if bool_decide (c = c') then Some 0 else S <$> index_of c cols'
  end.

(** The cells of a row at the given positions; [NaN] where a position is
    none. *)
Definition select (positions : list (option nat)) (r : list cell) : list cell :=
  (λ p, from_option (λ i, default NaN (r !! i)) NaN p) <$> positions.

Definition select_rectangular (names : list string) (positions : list (option nat))
    (rs : list (list cell)) :
  length positions = length names →
  forallb (λ r, length r =? length names) (select positions <$> rs) = true.
Proof.
  intros H. induction rs as [|r rs IH]; [reflexivity|].
  cbn [fmap list_fmap forallb]. unfold select at 1.
  rewrite length_fmap, H, Nat.eqb_refl. exact IH.
Defined.

Fixpoint locate (names : list string) (cols : list string) : result (list nat) :=
  match names with
  | [] => Ok []
  | n :: names' =>
      match index_of n cols with
      | None => Raise (KeyError n)
      | Some i =>
          match locate names' cols with
          | Raise e => Raise e
          | Ok ixs => Ok (i :: ixs)
          end
      end
  end.

(** [df[[c1, c2, ...]]]: the sub-frame of the named columns, [KeyError] when
    one is absent. *)
Definition getitem_columns (names : list string) (df : DataFrame) : result DataFrame :=
  match locate names (columns df) with
  | Raise e => Raise e
  | Ok _ =>
      Ok {| columns := names;
            rows := select ((λ n, index_of n (columns df)) <$> names) <$> rows df;
            rectangular :=
              select_rectangular names ((λ n, index_of n (columns df)) <$> names) (rows df)
                (length_fmap _ names) |}
  end.

(** The type of a value, and the common type of several: integers and
    floats meet in the floats, any other mix is held as Python objects. *)
Inductive dtype := int64 | float64 | bool_ | object.

#[global] Instance dtype_eq_dec : EqDecision dtype.
Proof. solve_decision. Defined.

Definition dtype_of (c : cell) : dtype :=
  match c with
  | Text _ => object
  | Int _ => int64
  | Float _ | Inf _ | NaN => float64
  | Bool _ => bool_
  end.

Definition common_dtype (a b : dtype) : dtype :=
  match a, b with
  | int64, int64 => int64
  | int64, float64 | float64, int64 | float64, float64 => float64
  | bool_, bool_ => bool_
  | _, _ => object
  end.

Fixpoint find_common_type (ds : list dtype) : dtype :=
  match ds with
  | [] => object
  | [d] => d
  | d :: ds' => common_dtype d (find_common_type ds')
  end.

Definition astype (d : dtype) (c : cell) : cell :=
  match d, c with
  | float64, Int z => Float (inject_Z z)
  | _, _ => c
  end.

(** [df.iterrows()] yields every row as a Series over the columns.  The
    values of the rows have one type for the whole frame, the common type
    of its columns: in a frame of integer and float columns the integers
    reach the loop as floats; in every other frame the cells are as they
    were read. *)
Definition iterrows (df : DataFrame) : list Series :=
  (λ r, {| index := columns df;
           values := astype (find_common_type (dtype_of <$> concat (rows df))) <$> r |})
    <$> rows df.

(** [row[label]] *)
Definition getitem (label : string) (row : Series) : result cell :=
  match index_of label (index row) with
  | None => Raise (KeyError label)
  | Some i => Ok (default NaN (values row !! i))
  end.

(** [pandas.read_csv(path)].  The file system gives, for each path that
    exists, what pandas makes of the file there: the table, or the exception
    with which reading it fails ([EmptyDataError] for a file with nothing to
    parse, [ParserError] for a line with more fields than expected,
    [UnicodeDecodeError] for bytes that are not UTF-8, [OSError] for a
    directory or a file that may not be read).  A path that does not exist
    raises [FileNotFoundError]. *)
Definition read_csv (fs : gmap string (result DataFrame)) (path : string) : result DataFrame :=
  match fs !! path with
  | None => Raise (FileNotFoundError path)
  | Some (Raise e) => Raise e
  | Some (Ok df) => Ok df
  end.

(** ** Documents

    [langchain_core.documents.Document] declares [page_content: str] and
    [metadata: dict]; construction validates the field types, so a content
    that is not a string is rejected, while metadata values are not
    inspected. *)

Record Document := {
  page_content : string;
  metadata : gmap string cell
}.

Definition Document_new (content : cell) (meta : gmap string cell) : result Document :=
  match content with
  | Text s => Ok {| page_content := s; metadata := meta |}
  | _ => Raise (ValidationError "page_content")
  end.

(** ** Configuration

    Modelled from the spec: [flipkart/config.py] is not among the sources.
    The record has the attributes the sources read from [Config]
    ([EMBEDDING_MODEL], [RAG_MODEL] and the three [ASTRA_DB_*] values)
    and the options of the spec's configuration surface that the sources
    never read ([retrieval_k], [generation_temperature],
    [ingestion_batch_size]). *)

Record Config := {
  EMBEDDING_MODEL : string;
  RAG_MODEL : string;
  ASTRA_DB_API_ENDPOINT : string;
  ASTRA_DB_APPLICATION_TOKEN : string;
  ASTRA_DB_KEYSPACE : string;
  retrieval_k : Z;
  generation_temperature : Q;
  ingestion_batch_size : Z
}.

(** ** flipkart/data_converter.py *)

Module DataConverter.

Record t := { file_path : string }.

(** [def __init__(self, file_path: str)] *)
Definition __init__ (a : call_args) : result t :=
  bound ← bind_args "DataConverter.__init__" ["file_path"] a;
  match assoc "file_path" bound with
  | Some p => Ok {| file_path := p |}
  | None => Raise (TypeError "DataConverter.__init__() missing required argument 'file_path'")
  end.

(** The element expression of the comprehension in [convert]:
    [Document(page_content=row['review'],
              metadata={"product_name": row["product_title"]})]. *)
Definition document_of_row (row : Series) : result Document :=
  review ← getitem "review" row;
  title ← getitem "product_title" row;
  Document_new review {["product_name" := title]}.

Definition convert (self : t) (fs : gmap string (result DataFrame)) : result (list Document) :=
  df0 ← read_csv fs (file_path self);
  df ← getitem_columns ["product_title"; "review"] df0;
  comprehension document_of_row (iterrows df).

End DataConverter.

(** ** The vector store

    The client object of the [flipkart_database] collection, with the
    documents the collection holds. *)

Record AstraDBVectorStore := {
  collection_name : string;
  api_endpoint : string;
  token : string;
  namespace : string;
  embedding_model : string;
  collection : list Document
}.

(** How the service answers one call of [add_documents]: it accepts the
    call and stores every document, or the call fails with an exception
    (the embedding endpoint or the database is unavailable, a request is
    refused, ...) after the documents marked in [written] have been
    stored. *)
Inductive store_response :=
| Accepted
| Failed (written : list bool) (e : exn).

(** The documents of a call that a mask marks. *)
Fixpoint marked (mask : list bool) (docs : list Document) : list Document :=
  match mask, docs with
  | true :: mask', d :: docs' => d :: marked mask' docs'
  | false :: mask', _ :: docs' => marked mask' docs'
  | _, _ => []
  end.

Definition with_collection (vs : AstraDBVectorStore) (docs : list Document)
  : AstraDBVectorStore :=
  {| collection_name := collection_name vs;
     api_endpoint := api_endpoint vs;
     token := token vs;
     namespace := namespace vs;
     embedding_model := embedding_model vs;
     collection := docs |}.

(** [vstore.add_documents(docs)] and [vstore.add_documents(docs,
    batch_size=n)], answered by [resp].  The documents are added without
    ids, so the store gives each a fresh one and every document it stores
    becomes a new entry of the collection; the batch size bounds how many
    documents travel in one request, not which documents are stored. *)
Definition add_documents (docs : list Document) (batch_size : option Z)
    (resp : store_response) (vs : AstraDBVectorStore) : AstraDBVectorStore * result unit :=
  match resp with
  | Accepted => (with_collection vs (collection vs ++ docs), Ok ())
  | Failed written e => (with_collection vs (collection vs ++ marked written docs), Raise e)
  end.

(** ** flipkart/data_ingestion.py *)

Module DataIngestor.

Record t := {
  embedding : string;
  vstore : AstraDBVectorStore
}.

(** [remote] is what the collection already holds when the client
    connects. *)
Definition __init__ (cfg : Config) (remote : list Document) : t :=
  {| embedding := EMBEDDING_MODEL cfg;
     vstore := {| collection_name := "flipkart_database";
                  api_endpoint := ASTRA_DB_API_ENDPOINT cfg;
                  token := ASTRA_DB_APPLICATION_TOKEN cfg;
                  namespace := ASTRA_DB_KEYSPACE cfg;
                  embedding_model := EMBEDDING_MODEL cfg;
                  collection := remote |} |}.

(** [ingest(self, load_existing=True)]: the object after the call and
    the returned store, or the exception.  [resp] is how the store answers
    if [add_documents] is called. *)
Definition ingest (self : t) (fs : gmap string (result DataFrame)) (resp : store_response)
    (load_existing : bool) : t * result AstraDBVectorStore :=
  if load_existing then (self, Ok (vstore self))
  else
    match
      converter ← DataConverter.__init__ (CallArgs ["data/flipkart_product_review.csv"] []);
      DataConverter.convert converter fs
    with
    | Raise e => (self, Raise e)
    | Ok docs =>
        match add_documents docs None resp (vstore self) with
        | (vs, Raise e) => ({| embedding := embedding self; vstore := vs |}, Raise e)
        | (vs, Ok _) => ({| embedding := embedding self; vstore := vs |}, Ok vs)
        end
    end.

End DataIngestor.

(** ** data/Improved/n_data_ingestion.py

    The module imports [DataConverter] from [flipkart.data_converter], the
    class above. *)

Module ImprovedDataIngestor.

Record t := {
  embedding : string;
  vstore : AstraDBVectorStore
}.

Definition __init__ (cfg : Config) (remote : list Document) : t :=
  {| embedding := EMBEDDING_MODEL cfg;
     vstore := {| collection_name := "flipkart_database";
                  api_endpoint := ASTRA_DB_API_ENDPOINT cfg;
                  token := ASTRA_DB_APPLICATION_TOKEN cfg;
                  namespace := ASTRA_DB_KEYSPACE cfg;
                  embedding_model := EMBEDDING_MODEL cfg;
                  collection := remote |} |}.

Definition get_vector_store (self : t) : AstraDBVectorStore := vstore self.

(** [ingest(self, file_path, batch_size=20)] *)
Definition ingest (self : t) (fs : gmap string (result DataFrame)) (resp : store_response)
    (file_path : string) (batch_size : Z) : t * result AstraDBVectorStore :=
  match
    DataConverter.__init__
      (CallArgs [file_path] [("content_col", "review"); ("metadata_col", "product_title")])
  with
  | Raise e => (self, Raise e)
  | Ok converter =>
      match DataConverter.convert converter fs with
      | Raise e => (self, Raise e)
      | Ok docs =>
          match docs with
          | [] => (self, Ok (vstore self))
          | _ :: _ =>
              match add_documents docs (Some batch_size) resp (vstore self) with
              | (vs, Raise e) => ({| embedding := embedding self; vstore := vs |}, Raise e)
              | (vs, Ok _) => ({| embedding := embedding self; vstore := vs |}, Ok vs)
              end
          end
      end
  end.

End ImprovedDataIngestor.

(** ** Chat messages, prompts and the values that flow through a chain *)

Inductive Message :=
| SystemMessage (content : string)
| HumanMessage (content : string)
| AIMessage (content : string).

(** The dicts passed from one runnable to the next hold strings, message
    lists and document lists. *)
Inductive value :=
| VStr (s : string)
| VMessages (ms : list Message)
| VDocuments (ds : list Document).

(** Python truth value *)
Definition truthy (v : value) : bool :=
  match v with
  | VStr s => negb (bool_decide (s = ""))
  | VMessages ms => negb (bool_decide (ms = []))
  | VDocuments ds => negb (bool_decide (length ds = 0))
  end.

(** [x[key]] on a dict *)
Definition dict_getitem (key : string) (x : gmap string value) : result value :=
  match x !! key with
  | Some v => Ok v
  | None => Raise (KeyError key)
  end.

(** A template string: literal text and [{name}] slots. *)
Inductive piece :=
| Lit (s : string)
| Slot (name : string).

(** The newline character, as a string. *)
Definition nl : string := String (Ascii.ascii_of_nat 10) EmptyString.

(** Filling the slots from a dict: [KeyError] for a slot the dict does not
    have.  The chains built below put only strings into slots; a slot
    holding a message or document list is rejected. *)
Fixpoint format (tpl : list piece) (x : gmap string value) : result string :=
  match tpl with
  | [] => Ok ""
  | Lit s :: tpl' => rest ← format tpl' x; Ok (s +:+ rest)
  | Slot name :: tpl' =>
      v ← dict_getitem name x;
      match v with
      | VStr s => rest ← format tpl' x; Ok (s +:+ rest)
      | _ => Raise (TypeError ("slot '" +:+ name +:+ "' is not filled with a string"))
      end
  end.

(** The entries of [ChatPromptTemplate.from_messages([...])]. *)
Inductive message_template :=
| System (tpl : list piece)
| Human (tpl : list piece)
| MessagesPlaceholder (variable_name : string).

Definition ChatPromptTemplate := list message_template.

(** Formatting a prompt with the entries of a dict: a system or human entry
    becomes one message, a placeholder is replaced by the messages under
    its name. *)
Fixpoint format_messages (p : ChatPromptTemplate) (x : gmap string value)
  : result (list Message) :=
  match p with
  | [] => Ok []
  | System tpl :: p' =>
      s ← format tpl x; rest ← format_messages p' x; Ok (SystemMessage s :: rest)
  | Human tpl :: p' =>
      s ← format tpl x; rest ← format_messages p' x; Ok (HumanMessage s :: rest)
  | MessagesPlaceholder name :: p' =>
      v ← dict_getitem name x;
      match v with
      | VMessages ms => rest ← format_messages p' x; Ok (ms ++ rest)
      | _ => Raise (ValueError ("variable " +:+ name +:+ " should be a list of messages"))
      end
  end.

(** [create_stuff_documents_chain] renders each document with its default
    document prompt [{page_content}] and joins them with a blank line. *)
Fixpoint format_docs (ds : list Document) : string :=
  match ds with
  | [] => ""
  | [d] => page_content d
  | d :: ds' => page_content d +:+ nl +:+ nl +:+ format_docs ds'
  end.

(** [ChatGroq(model=..., temperature=...)] *)
Record ChatGroq := {
  model_name : string;
  temperature : Q
}.

(** [vector_store.as_retriever(search_kwargs={"k": k})] *)
Record VectorStoreRetriever := {
  vectorstore : AstraDBVectorStore;
  search_k : Z
}.

Definition as_retriever (vs : AstraDBVectorStore) (k : Z) : VectorStoreRetriever :=
  {| vectorstore := vs; search_k := k |}.

(** [ChatMessageHistory]: an object holding the list of messages. *)
Record ChatMessageHistory := { messages : list Message }.

(** Which runnable of the chain talks to the chat model. *)
Inductive stage := Contextualize | Generate.

(** What reaches the services, in order. *)
Inductive request :=
| ChatRequest (stg : stage) (llm : ChatGroq) (prompt : list Message)
| SearchRequest (query : string) (k : Z).

(** ** flipkart/rag_chain.py *)

Module RAGChainBuilder.

(** The builder object.  [history_store] maps a session id to the address
    of its [ChatMessageHistory] object. *)
Record t := {
  vector_store : AstraDBVectorStore;
  model : ChatGroq;
  history_store : gmap string nat
}.

(** The builder, the history objects it has allocated (by address), the
    state of the services and the requests they have received. *)
Record State (W : Type) := {
  self : t;
  heap : list ChatMessageHistory;
  services : W;
  requests : list request
}.
Arguments self {W} _.
Arguments heap {W} _.
Arguments services {W} _.
Arguments requests {W} _.

(** The messages a session's history holds; none when the session has no
    history object. *)
Definition history {W} (st : State W) (session_id : string) : list Message :=
  match history_store (self st) !! session_id with
  | Some l =>
      match heap st !! l with
      | Some h => messages h
      | None => []
      end
  | None => []
  end.

(** [self.model = ChatGroq(model=Config.RAG_MODEL, temperature=0.5)] *)
Definition __init__ (cfg : Config) (vector_store : AstraDBVectorStore) : t :=
  {| vector_store := vector_store;
     model := {| model_name := RAG_MODEL cfg; temperature := 1 # 2 |};
     history_store := ∅ |}.

(** The state in which a builder is constructed: no session yet, no
    history object, no request made. *)
Definition initial {W} (cfg : Config) (vector_store : AstraDBVectorStore) (w : W) : State W :=
  {| self := __init__ cfg vector_store; heap := []; services := w; requests := [] |}.

Section Chain.

Context {W : Type}.

(** The chat model endpoint and the store's similarity search: each takes
    the request and the state of the services, and answers or fails. *)
Variable chat_completion : ChatGroq → list Message → W → W * result string.
Variable similarity_search : AstraDBVectorStore → string → Z → W → W * result (list Document).

(** Computations that read and write the state and may raise; the state
    reached when an exception escapes is kept. *)
Definition M (A : Type) : Type := State W → State W * result A.

#[local] Instance M_ret : MRet M := λ A a st, (st, Ok a).
#[local] Instance M_bind : MBind M := λ A B k m st,
  match m st with
  | (st', Ok a) => k a st'
  | (st', Raise e) => (st', Raise e)
  end.

Definition lift {A} (r : result A) : M A := λ st, (st, r).

(** One call of the chat model by the runnable [stg]. *)
Definition llm_invoke (stg : stage) (llm : ChatGroq) (prompt : list Message) : M string :=
  λ st,
    let '(w, r) := chat_completion llm prompt (services st) in
    ({| self := self st; heap := heap st; services := w;
        requests := requests st ++ [ChatRequest stg llm prompt] |}, r).

(** [retriever.invoke(query)]: a similarity search of the retriever's
    breadth. *)
Definition retriever_invoke (r : VectorStoreRetriever) (query : string) : M (list Document) :=
  λ st,
    let '(w, res) := similarity_search (vectorstore r) query (search_k r) (services st) in
    ({| self := self st; heap := heap st; services := w;
        requests := requests st ++ [SearchRequest query (search_k r)] |}, res).

(** [hist.messages], for the history object at address [l].  Addresses
    come from [history_store] and denote allocated objects. *)
Definition get_messages (l : nat) : M (list Message) :=
  λ st, (st, Ok (from_option messages [] (heap st !! l))).

(** [hist.add_messages(ms)] *)
Definition add_messages (l : nat) (ms : list Message) : M unit :=
  λ st,
    ({| self := self st;
        heap := alter (λ h, {| messages := messages h ++ ms |}) l (heap st);
        services := services st; requests := requests st |}, Ok ()).

(** [_get_history]: create the session's history when the id is new, then
    return the stored object. *)
Definition _get_history (session_id : string) : M nat :=
  λ st,
    let st1 :=
      if bool_decide (session_id ∈ dom (history_store (self st))) then st
      else
        {| self := {| vector_store := vector_store (self st);
                      model := model (self st);
                      history_store := <[session_id := length (heap st)]> (history_store (self st)) |};
           heap := heap st ++ [{| messages := [] |}];
           services := services st; requests := requests st |} in
    match history_store (self st1) !! session_id with
    | Some l => (st1, Ok l)
    | None => (st1, Raise (KeyError session_id))
    end.

(** A value used where a string is required. *)
Definition as_str (v : value) : result string :=
  match v with
  | VStr s => Ok s
  | _ => Raise (TypeError "expected a string")
  end.

(** [create_history_aware_retriever(llm, retriever, prompt)]: with no chat
    history the input goes to the retriever as it is; otherwise the prompt
    is sent to the model and the model's text is the query. *)
Definition create_history_aware_retriever (llm : ChatGroq) (retriever : VectorStoreRetriever)
    (prompt : ChatPromptTemplate) (x : gmap string value) : M (list Document) :=
  if negb (from_option truthy false (x !! "chat_history")) then
    query ← lift (v ← dict_getitem "input" x; as_str v);
    retriever_invoke retriever query
  else
    msgs ← lift (format_messages prompt x);
    query ← llm_invoke Contextualize llm msgs;
    retriever_invoke retriever query.

(** [create_stuff_documents_chain(llm, prompt)]: the documents under
    [context] are rendered into one string, the prompt is formatted and
    sent to the model. *)
Definition create_stuff_documents_chain (llm : ChatGroq) (prompt : ChatPromptTemplate)
    (x : gmap string value) : M string :=
  docs ← lift (v ← dict_getitem "context" x;
               match v with
               | VDocuments ds => Ok ds
               | _ => Raise (TypeError "context should be a list of documents")
               end);
  msgs ← lift (format_messages prompt (<["context" := VStr (format_docs docs)]> x));
  llm_invoke Generate llm msgs.

(** [create_retrieval_chain(retriever, combine_docs_chain)]: the input dict
    is extended with [context], then with [answer]. *)
Definition create_retrieval_chain (retriever : gmap string value → M (list Document))
    (combine_docs_chain : gmap string value → M string)
    (x : gmap string value) : M (gmap string value) :=
  docs ← retriever x;
  let x1 := <["context" := VDocuments docs]> x in
  answer ← combine_docs_chain x1;
  mret (<["answer" := VStr answer]> x1).

(** [RunnableWithMessageHistory(runnable, get_session_history,
    input_messages_key=..., history_messages_key=...,
    output_messages_key=...)] *)
Record RunnableWithMessageHistory := {
  runnable : gmap string value → M (gmap string value);
  get_session_history : string → M nat;
  input_messages_key : string;
  history_messages_key : string;
  output_messages_key : string
}.

(** The messages recorded for an input and for an output: a string under
    the key becomes one human, respectively one AI, message. *)
Definition _get_input_messages (r : RunnableWithMessageHistory) (input : gmap string value)
  : result (list Message) :=
  v ← dict_getitem (input_messages_key r) input;
  match v with
  | VStr s => Ok [HumanMessage s]
  | VMessages ms => Ok ms
  | VDocuments _ => Raise (ValueError "expected str or a list of messages")
  end.

Definition _get_output_messages (r : RunnableWithMessageHistory) (output : gmap string value)
  : result (list Message) :=
  v ← dict_getitem (output_messages_key r) output;
  match v with
  | VStr s => Ok [AIMessage s]
  | VMessages ms => Ok ms
  | VDocuments _ => Raise (ValueError "expected str or a list of messages")
  end.

(** [chain.invoke(input, config={"configurable": {"session_id": id}})]:
    the session's history is fetched and its messages are put into the
    input under [history_messages_key]; the wrapped chain runs; when it has
    returned, the input messages and then the output messages are added to
    the history.  When the wrapped chain raises, nothing is added. *)
Definition invoke (r : RunnableWithMessageHistory) (input : gmap string value)
    (session_id : string) : M (gmap string value) :=
  hist ← get_session_history r session_id;
  msgs ← get_messages hist;
  output ← runnable r (<[history_messages_key r := VMessages msgs]> input);
  input_messages ← lift (_get_input_messages r input);
  output_messages ← lift (_get_output_messages r output);
  _ ← add_messages hist (input_messages ++ output_messages);
  mret output.

(** The two prompts of [build_chain]. *)
Definition context_prompt : ChatPromptTemplate :=
  [ System [Lit "Given the chat history and user question, rewrite it as a standalone question."];
    MessagesPlaceholder "chat_history";
    Human [Slot "input"] ].

Definition qa_prompt : ChatPromptTemplate :=
  [ System [Lit ("You're an e-commerce bot answering product-related queries using reviews and titles."
                 +:+ nl +:+ "                             Stick to context. Be concise and helpful."
                 +:+ nl +:+ nl +:+ "CONTEXT:" +:+ nl);
            Slot "context";
            Lit (nl +:+ nl +:+ "QUESTION: ");
            Slot "input"];
    MessagesPlaceholder "chat_history";
    Human [Slot "input"] ].

Definition build_chain (b : t) : RunnableWithMessageHistory :=
  let retriever := as_retriever (vector_store b) 3 in
  let history_aware_retriever :=
    create_history_aware_retriever (model b) retriever context_prompt in
  let question_answer_chain := create_stuff_documents_chain (model b) qa_prompt in
  let rag_chain := create_retrieval_chain history_aware_retriever question_answer_chain in
  {| runnable := rag_chain;
     get_session_history := _get_history;
     input_messages_key := "input";
     history_messages_key := "chat_history";
     output_messages_key := "answer" |}.

(** Modelled from the spec: the caller of the chain (the web application)
    is not among the sources.  [ask(session_id, question) -> answer] invokes
    the built chain with the question under [input] and returns the string
    under [answer]. *)
Definition ask (b : t) (session_id question : string) : M string :=
  output ← invoke (build_chain b) {["input" := VStr question]} session_id;
  lift (v ← dict_getitem "answer" output; as_str v).

End Chain.

(** *** The stages of one run

    What one run of the built chain comes to, stage by stage, in terms of
    the requests made to the services.  The properties below relate the
    chain to these. *)

(** The messages the two prompts of [build_chain] come to. *)
Definition contextualize_messages (msgs : list Message) (question : string) : list Message :=
  SystemMessage "Given the chat history and user question, rewrite it as a standalone question."
    :: msgs ++ [HumanMessage question].

Definition qa_system_text (context question : string) : string :=
  ("You're an e-commerce bot answering product-related queries using reviews and titles."
     +:+ nl +:+ "                             Stick to context. Be concise and helpful."
     +:+ nl +:+ nl +:+ "CONTEXT:" +:+ nl)
  +:+ context +:+ (nl +:+ nl +:+ "QUESTION: ") +:+ question.

Definition generate_messages (docs : list Document) (msgs : list Message) (question : string)
  : list Message :=
  SystemMessage (qa_system_text (format_docs docs) question) :: msgs ++ [HumanMessage question].

Section Stages.

Context {W : Type}.
Variable chat_completion : ChatGroq → list Message → W → W * result string.
Variable similarity_search : AstraDBVectorStore → string → Z → W → W * result (list Document).

(** The input of the wrapped chain: the question and the session's
    messages. *)
Definition chain_input (question : string) (msgs : list Message) : gmap string value :=
  <["chat_history" := VMessages msgs]> {["input" := VStr question]}.

Definition chain_output (question : string) (msgs : list Message)
    (docs : list Document) (answer : string) : gmap string value :=
  <["answer" := VStr answer]> (<["context" := VDocuments docs]> (chain_input question msgs)).

(** The three stages of one run of the chain, as exchanges with the
    services: the state of the services afterwards, the requests made, and
    the stage's result. *)
Definition rewrite_stage (b : t) (question : string) (msgs : list Message) (w : W)
  : W * list request * result string :=
  if bool_decide (msgs = []) then (w, [], Ok question)
  else
    let '(w1, r) := chat_completion (model b) (contextualize_messages msgs question) w in
    (w1, [ChatRequest Contextualize (model b) (contextualize_messages msgs question)], r).

Definition retrieve_stage (b : t) (query : string) (w : W)
  : W * list request * result (list Document) :=
  let '(w1, r) := similarity_search (vector_store b) query 3 w in
  (w1, [SearchRequest query 3], r).

Definition generate_stage (b : t) (docs : list Document) (question : string)
    (msgs : list Message) (w : W) : W * list request * result string :=
  let '(w1, r) := chat_completion (model b) (generate_messages docs msgs question) w in
  (w1, [ChatRequest Generate (model b) (generate_messages docs msgs question)], r).

Definition pipeline (b : t) (question : string) (msgs : list Message) (w : W)
  : W * list request * result (list Document * string) :=
  match rewrite_stage b question msgs w with
  | (w1, reqs1, Raise e) => (w1, reqs1, Raise e)
  | (w1, reqs1, Ok query) =>
      match retrieve_stage b query w1 with
      | (w2, reqs2, Raise e) => (w2, reqs1 ++ reqs2, Raise e)
      | (w2, reqs2, Ok docs) =>
          match generate_stage b docs question msgs w2 with
          | (w3, reqs3, Raise e) => (w3, reqs1 ++ reqs2 ++ reqs3, Raise e)
          | (w3, reqs3, Ok answer) => (w3, reqs1 ++ reqs2 ++ reqs3, Ok (docs, answer))
          end
      end
  end.

(** A request the pipeline may make on question [q] with session messages
    [msgs]. *)
Definition issued (b : t) (q : string) (msgs : list Message) (req : request) : Prop :=
  match req with
  | ChatRequest Contextualize llm p =>
      llm = model b ∧ msgs ≠ [] ∧ p = contextualize_messages msgs q
  | ChatRequest Generate llm p =>
      llm = model b ∧ ∃ docs, p = generate_messages docs msgs q
  | SearchRequest query k =>
      k = 3%Z
      ∧ ((msgs = [] ∧ query = q)
         ∨ (msgs ≠ []
            ∧ ∃ w w', chat_completion (model b) (contextualize_messages msgs q) w
                      = (w', Ok query)))
  end.

(** The state after the services have received [reqs] and moved to [w]. *)
Definition served (st : State W) (w : W) (reqs : list request) : State W :=
  {| self := self st; heap := heap st; services := w; requests := requests st ++ reqs |}.

(** The state after [_get_history] has created the history of a new
    session. *)
Definition created (session_id : string) (st : State W) : State W :=
  {| self := {| vector_store := vector_store (self st);
                model := model (self st);
                history_store := <[session_id := length (heap st)]> (history_store (self st)) |};
     heap := heap st ++ [{| messages := [] |}];
     services := services st; requests := requests st |}.

(** The state after [ms] have been added to the history at address [l]. *)
Definition recorded (l : nat) (ms : list Message) (st : State W) : State W :=
  {| self := self st;
     heap := alter (λ h, {| messages := messages h ++ ms |}) l (heap st);
     services := services st; requests := requests st |}.

(** What a client may do with a builder and its chain. *)
Inductive call :=
| GetHistory (session_id : string)
| Ask (session_id question : string).

Inductive outcome :=
| Handle (l : result nat)
| Answer (a : result string).

Definition step (b : t) (c : call) (st : State W) : State W * outcome :=
  match c with
  | GetHistory session_id =>
      let '(st', r) := _get_history session_id st in (st', Handle r)
  | Ask session_id question =>
      let '(st', r) := ask chat_completion similarity_search b session_id question st in
      (st', Answer r)
  end.

Fixpoint run (b : t) (cs : list call) (st : State W) : State W * list outcome :=
  match cs with
  | [] => (st, [])
  | c :: cs' =>
      let '(st1, o) := step b c st in
      let '(st2, os) := run b cs' st1 in
      (st2, o :: os)
  end.

(** The answered questions of a session, in call order. *)
Fixpoint exchanges (session_id : string) (cs : list call) (os : list outcome)
  : list (string * string) :=
  match cs, os with
  | Ask s q :: cs', Answer (Ok a) :: os' =>
      if bool_decide (s = session_id) then (q, a) :: exchanges session_id cs' os'
      else exchanges session_id cs' os'
  | _ :: cs', _ :: os' => exchanges session_id cs' os'
  | _, _ => []
  end.

Definition turns (ex : string * string) : list Message :=
  [HumanMessage ex.1; AIMessage ex.2].

(** Every stored address is allocated, and no two sessions share one. *)
Definition wf (st : State W) : Prop :=
  (∀ s l, history_store (self st) !! s = Some l → l < length (heap st))
  ∧ (∀ s1 s2 l, history_store (self st) !! s1 = Some l →
                history_store (self st) !! s2 = Some l → s1 = s2).

(** The query of a run and the state of the services when it is searched:
    the question itself when the session has no messages, otherwise what
    the model answers to the rewriting prompt. *)
Definition rewrites_to (b : t) (q : string) (msgs : list Message) (w : W)
    (query : string) (w1 : W) : Prop :=
  (msgs = [] ∧ query = q ∧ w1 = w)
  ∨ (msgs ≠ []
     ∧ chat_completion (model b) (contextualize_messages msgs q) w = (w1, Ok query)).

(** The rewriting request of a run, if it makes one. *)
Definition rewrite_requests (b : t) (q : string) (msgs : list Message) : list request :=
  if bool_decide (msgs = []) then []
  else [ChatRequest Contextualize (model b) (contextualize_messages msgs q)].

End Stages.

End RAGChainBuilder.

Import RAGChainBuilder.

(** * Notions used in the statements *)

(** The file a fresh ingestion reads. *)
Definition csv_path : string := "data/flipkart_product_review.csv".

(** The title and review of a row that has text in columns [i] and [j]. *)
Definition record_of (i j : nat) (r : list cell) : option (string * string) :=
  match r !! i, r !! j with
  | Some (Text title), Some (Text review) => Some (title, review)
  | _, _ => None
  end.

(** The title and review of every row, when the table has both columns and
    every row has text in both. *)
Definition well_formed_records (df : DataFrame) : option (list (string * string)) :=
  i ← index_of "product_title" (columns df);
  j ← index_of "review" (columns df);
  mapM (record_of i j) (rows df).

(** The document the converter is to make of a record. *)
Definition document_of (rec : string * string) : Document :=
  {| page_content := rec.2; metadata := {["product_name" := Text rec.1]} |}.

(** The cell a row holds in column [i] of the table. *)
Definition cell_at (i : nat) (r : list cell) : cell := default NaN (r !! i).

(** Whether a document names its product with non-empty text. *)
Definition names_product (d : Document) : bool :=
  match metadata d !! "product_name" with
  | Some (Text s) => negb (bool_decide (s = ""))
  | _ => false
  end.

(** * Sample data *)

Definition sample_config : Config :=
  {| EMBEDDING_MODEL := "BAAI/bge-base-en-v1.5";
     RAG_MODEL := "llama-3.1-8b-instant";
     ASTRA_DB_API_ENDPOINT := "https://db.example";
     ASTRA_DB_APPLICATION_TOKEN := "token";
     ASTRA_DB_KEYSPACE := "default_keyspace";
     retrieval_k := 3;
     generation_temperature := 9 # 10;
     ingestion_batch_size := 20 |}.

(** Two complete rows. *)
Definition reviews_complete : DataFrame :=
  {| columns := ["product_id"; "product_title"; "rating"; "summary"; "review"];
     rows := [ [Text "P1"; Text "Phone X"; Int 5; Text "Good"; Text "Great battery life"];
               [Text "P1"; Text "Phone X"; Int 2; Text "Bad"; Text "Screen cracked easily"] ];
     rectangular := eq_refl |}.

(** Two rows, the second without review. *)
Definition reviews_missing_review : DataFrame :=
  {| columns := ["product_id"; "product_title"; "rating"; "summary"; "review"];
     rows := [ [Text "P1"; Text "Phone X"; Int 5; Text "Good"; Text "Great battery life"];
               [Text "P1"; Text "Phone X"; Int 2; Text "Bad"; NaN] ];
     rectangular := eq_refl |}.

(** One row, without product title. *)
Definition reviews_missing_title : DataFrame :=
  {| columns := ["product_id"; "product_title"; "rating"; "summary"; "review"];
     rows := [ [Text "P7"; NaN; Int 4; Text "Fine"; Text "Works as described"] ];
     rectangular := eq_refl |}.


(** An ingestor connected to an empty collection. *)
Definition fresh_ingestor : DataIngestor.t := DataIngestor.__init__ sample_config [].

(** ** Stand-ins for the services *)

(** A chat model that reads its responses off a script and is unavailable
    when the script is exhausted. *)
Definition scripted_chat (llm : ChatGroq) (prompt : list Message)
    (w : list (result string)) : list (result string) * result string :=
  match w with
  | [] => ([], Raise (ServiceError "chat model unavailable"))
  | r :: w' => (w', r)
  end.

(** A store that returns the first [k] documents of its collection. *)
Definition prefix_search (vs : AstraDBVectorStore) (query : string) (k : Z)
    (w : list (result string)) : list (result string) * result (list Document) :=
  (w, Ok (take (Z.to_nat k) (collection vs))).

(** A store of four documents, a builder on it, and a session of three
    asks: the first answered without rewriting, the second rewritten and
    answered, the third failing because the model is unavailable. *)
Definition sample_store : AstraDBVectorStore :=
  with_collection (DataIngestor.vstore fresh_ingestor)
    [ {| page_content := "Great battery life"; metadata := {["product_name" := Text "Phone X"]} |};
      {| page_content := "Screen cracked easily"; metadata := {["product_name" := Text "Phone X"]} |};
      {| page_content := "Camera is sharp"; metadata := {["product_name" := Text "Phone X"]} |};
      {| page_content := "Charger runs hot"; metadata := {["product_name" := Text "Phone X"]} |} ].

Definition sample_builder : RAGChainBuilder.t := RAGChainBuilder.__init__ sample_config sample_store.

Definition sample_script : list (result string) :=
  [ Ok "People praise the battery life.";
    Ok "What do people say about the screen of Phone X?";
    Ok "Some report that the screen cracks easily." ].

Definition sample_state_0 : State (list (result string)) :=
  initial sample_config sample_store sample_script.

Definition sample_ask (session_id question : string) (st : State (list (result string)))
  : State (list (result string)) * result string :=
  ask scripted_chat prefix_search sample_builder session_id question st.

Definition sample_state_1 := (sample_ask "s1" "What do people say about the battery?" sample_state_0).1.
Definition sample_state_2 := (sample_ask "s1" "And the screen?" sample_state_1).1.
Definition sample_state_3 := (sample_ask "s1" "Is it waterproof?" sample_state_2).1.

Definition sample_calls : list call :=
  [ Ask "s1" "What do people say about the battery?";
    GetHistory "s2";
    Ask "s1" "And the screen?";
    GetHistory "s1";
    Ask "s1" "Is it waterproof?" ].

Definition sample_run := run scripted_chat prefix_search sample_builder sample_calls sample_state_0.

(** The same two records in a table of two columns, review first. *)
Definition reviews_two_columns : DataFrame :=
  {| columns := ["review"; "product_title"];
     rows := [ [Text "Great battery life"; Text "Phone X"];
               [Text "Screen cracked easily"; Text "Phone X"] ];
     rectangular := eq_refl |}.


(** A builder on an empty store, and a model with one response. *)
Definition empty_store_builder : RAGChainBuilder.t :=
  RAGChainBuilder.__init__ sample_config (DataIngestor.vstore fresh_ingestor).

Definition empty_store_state : State (list (result string)) :=
  initial sample_config (DataIngestor.vstore fresh_ingestor)
    [Ok "I have no reviews about that."].

(** Two documents with the contents of the first two of [sample_store] and
    other metadata. *)
Definition retitled_documents : list Document :=
  [ {| page_content := "Great battery life"; metadata := {["product_name" := Text "Phone Y"]} |};
    {| page_content := "Screen cracked easily"; metadata := ∅ |} ].

(** One invocation of the built chain, for a new session. *)
Definition sample_invocation :=
  invoke (build_chain scripted_chat prefix_search sample_builder)
    {["input" := VStr "Which phone?"]} "s9" sample_state_0.

Definition sample_output : gmap string value :=
  match sample_invocation.2 with
  | Ok out => out
  | Raise _ => ∅
  end.

(** * Properties of the ingestion path *)

Lemma getitem_columns_two df i j :
  index_of "product_title" (columns df) = Some i →
  index_of "review" (columns df) = Some j →
  ∃ df',
    getitem_columns ["product_title"; "review"] df = Ok df'
    ∧ columns df' = ["product_title"; "review"]
    ∧ rows df' = (λ r, [cell_at i r; cell_at j r]) <$> rows df.
Proof.
  intros Hi Hj.
  assert (Hloc : locate ["product_title"; "review"] (columns df) = Ok [i; j]).
  { cbn [locate]. by rewrite Hi, Hj. }
  unfold getitem_columns. rewrite Hloc. eexists. split; [reflexivity|].
  split; [reflexivity|]. cbn [rows fmap list_fmap]. rewrite Hi, Hj. reflexivity.
Qed.

Lemma document_of_row_two title review :
  DataConverter.document_of_row
    {| index := ["product_title"; "review"]; values := [title; review] |} =
  Document_new review {["product_name" := title]}.
Proof. reflexivity. Qed.

Lemma find_common_type_numeric (ds : list dtype) :
  find_common_type ds = int64 ∨ find_common_type ds = float64 → object ∉ ds.
Proof.
  induction ds as [|d [|d' ds] IH].
  - intros _. apply not_elem_of_nil.
  - cbn. intros [->| ->]; by rewrite list_elem_of_singleton.
  - change (find_common_type (d :: d' :: ds))
      with (common_dtype d (find_common_type (d' :: ds))).
    intros H. apply not_elem_of_cons.
    destruct d, (find_common_type (d' :: ds)); cbn in H;
      try (by destruct H); (split; [done|]); apply IH; auto.
Qed.

Lemma astype_unchanged (d : dtype) (c : cell) : d ≠ float64 → astype d c = c.
Proof. by destruct d, c. Qed.

(** In a frame whose rows reach the loop with another type than they were
    read with, no review is a string; every other frame is iterated as it
    was read.  Either way the comprehension of [convert] is the one over the
    cells as read. *)
Lemma comprehension_selected (i j : nat) (rs : list (list cell)) (df' : DataFrame) :
  columns df' = ["product_title"; "review"] →
  rows df' = (λ r, [cell_at i r; cell_at j r]) <$> rs →
  comprehension DataConverter.document_of_row (iterrows df') =
  comprehension (λ r, Document_new (cell_at j r) {["product_name" := cell_at i r]}) rs.
Proof.
  intros Hc Hr. unfold iterrows. rewrite Hc, Hr. clear.
  destruct (decide (find_common_type
                      (dtype_of <$> concat ((λ r, [cell_at i r; cell_at j r]) <$> rs))
                    = float64)) as [Hd|Hd].
  - destruct rs as [|r rs]; [reflexivity|].
    assert (Hnum : object ∉ dtype_of <$> concat ((λ r, [cell_at i r; cell_at j r]) <$> (r :: rs)))
      by (apply find_common_type_numeric; by right).
    rewrite Hd. rewrite !fmap_cons in *. cbn [comprehension fmap list_fmap].
    rewrite document_of_row_two.
    cbn [concat app fmap list_fmap] in Hnum.
    apply not_elem_of_cons in Hnum as [_ Hnum]. apply not_elem_of_cons in Hnum as [Hnum _].
    by destruct (cell_at j r).
  - revert Hd. generalize (find_common_type
                      (dtype_of <$> concat ((λ r, [cell_at i r; cell_at j r]) <$> rs))).
    intros d Hd. induction rs as [|r rs IH]; [reflexivity|].
    rewrite !fmap_cons. cbn [comprehension fmap list_fmap].
    rewrite !astype_unchanged by done.
    rewrite document_of_row_two, IH. reflexivity.
Qed.

(** With both columns present, [convert] is the comprehension over the rows
    of the file. *)
Lemma convert_rows self fs df i j :
  fs !! DataConverter.file_path self = Some (Ok df) →
  index_of "product_title" (columns df) = Some i →
  index_of "review" (columns df) = Some j →
  DataConverter.convert self fs =
    comprehension (λ r, Document_new (cell_at j r) {["product_name" := cell_at i r]}) (rows df).
Proof.
  intros Hfs Hi Hj. unfold DataConverter.convert, read_csv. rewrite Hfs. cbn [mbind result_bind].
  destruct (getitem_columns_two df i j Hi Hj) as (df' & -> & Hc & Hr).
  by apply comprehension_selected.
Qed.

Lemma comprehension_length {A B} (f : A → result B) xs ys :
  comprehension f xs = Ok ys → length ys = length xs.
Proof.
  revert ys. induction xs as [|x xs IH]; simpl; intros ys H.
  - injection H as <-. reflexivity.
  - destruct (f x); [|discriminate].
    destruct (comprehension f xs); [|discriminate].
    injection H as <-. simpl. f_equal. apply IH. reflexivity.
Qed.

Lemma comprehension_well_formed i j rs recs :
  mapM (record_of i j) rs = Some recs →
  comprehension (λ r, Document_new (cell_at j r) {["product_name" := cell_at i r]}) rs =
    Ok (document_of <$> recs).
Proof.
  intros H. apply mapM_Some in H.
  induction H as [|r rec rs recs Hr _ IH]; [reflexivity|].
  cbn [comprehension]. rewrite IH, fmap_cons.
  unfold record_of in Hr. unfold cell_at.
  destruct (r !! i) as [[title| | | | |]|]; try discriminate.
  destruct (r !! j) as [[review| | | | |]|]; try discriminate.
  injection Hr as <-. reflexivity.
Qed.

(** The comprehension stops at the first row whose review is not text. *)
Lemma comprehension_not_text i j rs r :
  r ∈ rs → (∀ s, cell_at j r ≠ Text s) →
  comprehension (λ r, Document_new (cell_at j r) {["product_name" := cell_at i r]}) rs =
    Raise (ValidationError "page_content").
Proof.
  intros Hin Hnot. induction rs as [|r' rs IH]; [inversion Hin|].
  cbn [comprehension]. apply elem_of_cons in Hin as [->|Hin].
  - destruct (cell_at j r') as [s| | | | |] eqn:E; try reflexivity. by destruct (Hnot s).
  - destruct (cell_at j r'); try reflexivity. cbn. by rewrite (IH Hin).
Qed.

Lemma comprehension_missing_review i j rs r :
  r ∈ rs → cell_at j r = NaN →
  comprehension (λ r, Document_new (cell_at j r) {["product_name" := cell_at i r]}) rs =
    Raise (ValidationError "page_content").
Proof.
  intros Hin Hnan. apply (comprehension_not_text i j rs r Hin).
  intros s. by rewrite Hnan.
Qed.

Lemma comprehension_metadata i j rs docs :
  comprehension (λ r, Document_new (cell_at j r) {["product_name" := cell_at i r]}) rs = Ok docs →
  Forall2 (λ r d, cell_at j r = Text (page_content d) ∧
                  metadata d = {["product_name" := cell_at i r]}) rs docs.
Proof.
  revert docs. induction rs as [|r rs IH]; simpl; intros docs H.
  - injection H as <-. constructor.
  - destruct (cell_at j r) as [review| | | | |] eqn:Ej; simpl in H; try discriminate.
    destruct (comprehension _ rs) as [ds|]; [|discriminate].
    injection H as <-. constructor; [now split | apply IH; reflexivity].
Qed.

(** A fresh ingestion converts the fixed file and, when that succeeds,
    calls the store once with what it got. *)
Lemma ingest_fresh (self : DataIngestor.t) (fs : gmap string (result DataFrame))
    (resp : store_response) :
  DataIngestor.ingest self fs resp false =
    match DataConverter.convert {| DataConverter.file_path := csv_path |} fs with
    | Raise e => (self, Raise e)
    | Ok docs =>
        match add_documents docs None resp (DataIngestor.vstore self) with
        | (vs, Raise e) =>
            ({| DataIngestor.embedding := DataIngestor.embedding self;
                DataIngestor.vstore := vs |}, Raise e)
        | (vs, Ok _) =>
            ({| DataIngestor.embedding := DataIngestor.embedding self;
                DataIngestor.vstore := vs |}, Ok vs)
        end
    end.
Proof. reflexivity. Qed.

(** ** Well-formed batches *)




(** ** Records with a missing field *)

(** C2, as stated, fails: with two records of which the second has no
    review, a fresh ingestion does not return a store holding one
    document, whatever the store would answer. *)
Lemma ingest_missing_review_not_skipped :
  length (rows reviews_missing_review) = 2
  ∧ ∀ resp,
      ¬ ∃ self' vs',
          DataIngestor.ingest fresh_ingestor {[ csv_path := Ok reviews_missing_review ]}
            resp false
            = (self', Ok vs')
          ∧ length (collection vs') = 2 - 1.
Proof.
  split; [reflexivity|].
  intros resp (self' & vs' & H & _). vm_compute in H. discriminate H.
Qed.

(** C2, amended: the converter has no path that skips a record.  When the
    file has both columns and some record has no review, building that
    record's document is rejected, the exception leaves [ingest], and the
    ingestor and its store are as before: no document of the batch is
    stored. *)
Theorem ingest_missing_review_fails (self : DataIngestor.t)
    (fs : gmap string (result DataFrame)) (resp : store_response)
    (df : DataFrame) (i j : nat) (r : list cell) :
  fs !! csv_path = Some (Ok df) →
  index_of "product_title" (columns df) = Some i →
  index_of "review" (columns df) = Some j →
  r ∈ rows df →
  cell_at j r = NaN →
  DataIngestor.ingest self fs resp false = (self, Raise (ValidationError "page_content")).
Proof.
  intros Hfs Hi Hj Hin Hnan.
  rewrite ingest_fresh.
  rewrite (convert_rows {| DataConverter.file_path := csv_path |} fs df i j Hfs Hi Hj).
  rewrite (comprehension_missing_review i j (rows df) r Hin Hnan). reflexivity.
Qed.

Lemma ingest_missing_review_fails_witness :
  DataIngestor.ingest fresh_ingestor {[ csv_path := Ok reviews_missing_review ]} Accepted false
    = (fresh_ingestor, Raise (ValidationError "page_content")).
Proof.
  apply (ingest_missing_review_fails fresh_ingestor
           {[ csv_path := Ok reviews_missing_review ]} Accepted
           reviews_missing_review 1 4
           [Text "P1"; Text "Phone X"; Int 2; Text "Bad"; NaN]).
  - reflexivity.
  - reflexivity.
  - reflexivity.
  - apply elem_of_cons; right. apply elem_of_cons; left. reflexivity.
  - reflexivity.
Defined.

(** C9, as stated, fails: a record with a review and no product title is
    converted, and its document carries the missing value under
    [product_name]. *)
Lemma convert_missing_title_document :
  ∃ d,
    DataConverter.convert {| DataConverter.file_path := csv_path |}
      {[ csv_path := Ok reviews_missing_title ]} = Ok [d]
    ∧ metadata d !! "product_name" = Some NaN
    ∧ names_product d = false.
Proof.
  eexists. split; [reflexivity|]. split; reflexivity.
Qed.

(** C9, amended: for every record that is converted into a document, the
    metadata of the document is the single entry [product_name], holding
    the cell the record has in the [product_title] column as it was read:
    the title text when there is one, the missing value otherwise.  Nothing
    checks that it is non-empty. *)
Theorem convert_metadata_is_title_cell (self : DataConverter.t)
    (fs : gmap string (result DataFrame))
    (df : DataFrame) (i j : nat) (docs : list Document) :
  fs !! DataConverter.file_path self = Some (Ok df) →
  index_of "product_title" (columns df) = Some i →
  index_of "review" (columns df) = Some j →
  DataConverter.convert self fs = Ok docs →
  Forall2 (λ r d, metadata d = {["product_name" := cell_at i r]}) (rows df) docs.
Proof.
  intros Hfs Hi Hj Hconv.
  rewrite (convert_rows self fs df i j Hfs Hi Hj) in Hconv.
  apply comprehension_metadata in Hconv.
  eapply Forall2_impl; [exact Hconv|]. intros r d [_ H]. exact H.
Qed.

Lemma convert_metadata_is_title_cell_witness :
  Forall2 (λ r d, metadata d = {["product_name" := cell_at 1 r]})
    (rows reviews_missing_title)
    [ {| page_content := "Works as described"; metadata := {["product_name" := NaN]} |} ].
Proof.
  apply (convert_metadata_is_title_cell {| DataConverter.file_path := csv_path |}
           {[ csv_path := Ok reviews_missing_title ]} reviews_missing_title 1 4).
  - reflexivity.
  - reflexivity.
  - reflexivity.
  - reflexivity.
Defined.

(** ** The improved ingestor *)

(** C10: for every file path and batch size, [ingest] of the improved
    ingestor raises [TypeError]: it calls [DataConverter] with the keyword
    arguments [content_col] and [metadata_col], which the constructor does
    not take.  The exception is raised whatever the files hold, before any
    file is read, and the ingestor and its store are as before. *)
Theorem improved_ingest_raises_TypeError (self : ImprovedDataIngestor.t)
    (fs : gmap string (result DataFrame)) (resp : store_response)
    (file_path : string) (batch_size : Z) :
  DataConverter.__init__
    (CallArgs [file_path] [("content_col", "review"); ("metadata_col", "product_title")])
    = Raise (TypeError "DataConverter.__init__() got an unexpected keyword argument 'content_col'")
  ∧ ImprovedDataIngestor.ingest self fs resp file_path batch_size
    = (self, Raise (TypeError
         "DataConverter.__init__() got an unexpected keyword argument 'content_col'")).
Proof. split; reflexivity. Qed.

(** * Further properties of the ingestion path *)

Lemma index_of_None (c : string) (cols : list string) :
  index_of c cols = None ↔ c ∉ cols.
Proof.
  induction cols as [|c' cols IH]; cbn [index_of].
  - split; [intros _; apply not_elem_of_nil | done].
  - rewrite not_elem_of_cons. case_bool_decide as Hc.
    + split; [done | intros [? _]; done].
    + destruct (index_of c cols); cbn; split; try done.
      * intros [_ H]. by apply IH in H.
      * intros _. split; [done | by apply IH].
Qed.

(** [convert], case by case. *)
Lemma convert_cases self fs :
  DataConverter.convert self fs =
    match fs !! DataConverter.file_path self with
    | None => Raise (FileNotFoundError (DataConverter.file_path self))
    | Some (Raise e) => Raise e
    | Some (Ok df) =>
        match index_of "product_title" (columns df), index_of "review" (columns df) with
        | Some i, Some j =>
            comprehension
              (λ r, Document_new (cell_at j r) {["product_name" := cell_at i r]}) (rows df)
        | None, _ => Raise (KeyError "product_title")
        | Some _, None => Raise (KeyError "review")
        end
    end.
Proof.
  destruct (fs !! DataConverter.file_path self) as [[df|e]|] eqn:Hfs.
  - destruct (index_of "product_title" (columns df)) as [i|] eqn:Hi.
    + destruct (index_of "review" (columns df)) as [j|] eqn:Hj.
      * by apply convert_rows.
      * unfold DataConverter.convert, read_csv, getitem_columns. rewrite Hfs.
        cbn [mbind result_bind locate]. by rewrite Hi, Hj.
    + unfold DataConverter.convert, read_csv, getitem_columns. rewrite Hfs.
      cbn [mbind result_bind locate]. by rewrite Hi.
  - unfold DataConverter.convert, read_csv. by rewrite Hfs.
  - unfold DataConverter.convert, read_csv. by rewrite Hfs.
Qed.

Lemma comprehension_all_text i j rs :
  Forall (λ r, ∃ s, cell_at j r = Text s) rs →
  ∃ docs, comprehension
            (λ r, Document_new (cell_at j r) {["product_name" := cell_at i r]}) rs = Ok docs.
Proof.
  induction 1 as [|r rs [s Hs] _ [docs IH]]; [by exists []|].
  cbn [comprehension]. rewrite Hs, IH. cbn. eauto.
Qed.

Lemma comprehension_raise i j rs e :
  comprehension (λ r, Document_new (cell_at j r) {["product_name" := cell_at i r]}) rs = Raise e →
  e = ValidationError "page_content" ∧ ∃ r, r ∈ rs ∧ ∀ s, cell_at j r ≠ Text s.
Proof.
  induction rs as [|r rs IH]; cbn [comprehension]; [done|].
  destruct (cell_at j r) as [s| | | | |] eqn:Hj; cbn;
    try (intros [= <-]; split; [done|]; exists r;
         split; [by apply elem_of_cons; left | by rewrite Hj]).
  destruct (comprehension _ rs) as [docs|e']; [done|]. intros [= ->].
  destruct (IH eq_refl) as [-> (r' & Hin & Hnot)].
  split; [done|]. exists r'. split; [by apply elem_of_cons; right | done].
Qed.

Lemma comprehension_projection i1 j1 i2 j2 rs1 rs2 :
  (λ r, (cell_at i1 r, cell_at j1 r)) <$> rs1 = (λ r, (cell_at i2 r, cell_at j2 r)) <$> rs2 →
  comprehension (λ r, Document_new (cell_at j1 r) {["product_name" := cell_at i1 r]}) rs1 =
  comprehension (λ r, Document_new (cell_at j2 r) {["product_name" := cell_at i2 r]}) rs2.
Proof.
  revert rs2. induction rs1 as [|r1 rs1 IH]; intros [|r2 rs2]; try done.
  rewrite !fmap_cons. intros [= Hi Hj Hrest].
  cbn [comprehension]. rewrite Hi, Hj, (IH rs2 Hrest). reflexivity.
Qed.


(** X1: [convert] returns a list of documents exactly when reading the file
    gives a table, the table has both the [product_title] and the [review]
    column, and every row has text in the [review] column; the other
    columns and the titles play no part.  (A path that does not exist, a
    file pandas cannot read, a missing column and a review that is missing
    or read as a number all make it raise.) *)
Theorem convert_succeeds_iff (self : DataConverter.t) (fs : gmap string (result DataFrame)) :
  (∃ docs, DataConverter.convert self fs = Ok docs)
  ↔ ∃ df i j,
      fs !! DataConverter.file_path self = Some (Ok df)
      ∧ index_of "product_title" (columns df) = Some i
      ∧ index_of "review" (columns df) = Some j
      ∧ Forall (λ r, ∃ s, cell_at j r = Text s) (rows df).
Proof.
  rewrite convert_cases. split.
  - intros [docs H].
    destruct (fs !! DataConverter.file_path self) as [[df|e]|] eqn:Hfs; [|done|done].
    destruct (index_of "product_title" (columns df)) as [i|] eqn:Hi; [|done].
    destruct (index_of "review" (columns df)) as [j|] eqn:Hj; [|done].
    exists df, i, j. repeat split; try done.
    apply comprehension_metadata in H. clear -H.
    induction H as [|r d rs ds [Hr _] _ IH]; constructor; eauto.
  - intros (df & i & j & Hfs & Hi & Hj & Hall). rewrite Hfs, Hi, Hj.
    by apply comprehension_all_text.
Qed.

(** X2: every failure of [convert] is one of four: the path does not exist
    ([FileNotFoundError]); pandas fails to read the file, and its exception
    (an [EmptyDataError], a [ParserError], ...) leaves [convert] unchanged;
    the table lacks the [product_title] or the [review] column
    ([KeyError], whatever the rows hold); or both columns are there and
    some row's review is not text, being missing or read as a number or a
    boolean ([ValidationError] on [page_content]). *)
Theorem convert_failure_kinds (self : DataConverter.t) (fs : gmap string (result DataFrame))
    (e : exn) :
  DataConverter.convert self fs = Raise e →
  (fs !! DataConverter.file_path self = None
   ∧ e = FileNotFoundError (DataConverter.file_path self))
  ∨ fs !! DataConverter.file_path self = Some (Raise e)
  ∨ (∃ df k, fs !! DataConverter.file_path self = Some (Ok df)
             ∧ ("product_title" ∉ columns df ∨ "review" ∉ columns df)
             ∧ e = KeyError k)
  ∨ (∃ df j r, fs !! DataConverter.file_path self = Some (Ok df)
               ∧ "product_title" ∈ columns df
               ∧ index_of "review" (columns df) = Some j
               ∧ r ∈ rows df ∧ (∀ s, cell_at j r ≠ Text s)
               ∧ e = ValidationError "page_content").
Proof.
  rewrite convert_cases.
  destruct (fs !! DataConverter.file_path self) as [[df|e']|];
    [|intros [= <-]; by right; left|intros [= <-]; by left].
  destruct (index_of "product_title" (columns df)) as [i|] eqn:Hi.
  - destruct (index_of "review" (columns df)) as [j|] eqn:Hj.
    + intros [-> (r & Hin & Hnot)]%comprehension_raise. do 3 right.
      exists df, j, r. repeat split; try done.
      destruct (decide ("product_title" ∈ columns df)) as [|Hn]; [done|].
      apply index_of_None in Hn. congruence.
    + intros [= <-]. right; right; left. exists df, "review". repeat split; try done.
      right. by apply index_of_None.
  - intros [= <-]. right; right; left. exists df, "product_title". repeat split; try done.
    left. by apply index_of_None.
Qed.

(** X3: when [convert] returns, it returns one document per row of the
    file, in row order, and the content of each document is the text its
    row has in the [review] column. *)
Theorem convert_one_document_per_row (self : DataConverter.t)
    (fs : gmap string (result DataFrame)) (df : DataFrame) (docs : list Document) :
  fs !! DataConverter.file_path self = Some (Ok df) →
  DataConverter.convert self fs = Ok docs →
  length docs = length (rows df)
  ∧ ∃ j, index_of "review" (columns df) = Some j
         ∧ Forall2 (λ r d, cell_at j r = Text (page_content d)) (rows df) docs.
Proof.
  intros Hfs. rewrite convert_cases, Hfs.
  destruct (index_of "product_title" (columns df)) as [i|] eqn:Hi; [|done].
  destruct (index_of "review" (columns df)) as [j|] eqn:Hj; [|done].
  intros H. split; [by eapply comprehension_length|].
  exists j. split; [done|]. apply comprehension_metadata in H.
  eapply Forall2_impl; [exact H|]. by intros r d [? _].
Qed.

(** X4: [convert] looks at nothing but the [product_title] and [review]
    columns: two files whose rows agree on these two columns, whatever
    their other columns and the order of the columns, are converted to the
    same result (the same documents, or the same failure). *)
Theorem convert_ignores_other_columns (self1 self2 : DataConverter.t)
    (fs1 fs2 : gmap string (result DataFrame)) (df1 df2 : DataFrame) (i1 j1 i2 j2 : nat) :
  fs1 !! DataConverter.file_path self1 = Some (Ok df1) →
  fs2 !! DataConverter.file_path self2 = Some (Ok df2) →
  index_of "product_title" (columns df1) = Some i1 →
  index_of "review" (columns df1) = Some j1 →
  index_of "product_title" (columns df2) = Some i2 →
  index_of "review" (columns df2) = Some j2 →
  (λ r, (cell_at i1 r, cell_at j1 r)) <$> rows df1
    = (λ r, (cell_at i2 r, cell_at j2 r)) <$> rows df2 →
  DataConverter.convert self1 fs1 = DataConverter.convert self2 fs2.
Proof.
  intros Hfs1 Hfs2 Hi1 Hj1 Hi2 Hj2 Hrows.
  rewrite !convert_cases, Hfs1, Hfs2, Hi1, Hj1, Hi2, Hj2.
  by apply comprehension_projection.
Qed.

(** X5: [convert] returns the empty list exactly for a file that has both
    columns and no row. *)
Theorem convert_empty_iff (self : DataConverter.t) (fs : gmap string (result DataFrame)) :
  DataConverter.convert self fs = Ok []
  ↔ ∃ df, fs !! DataConverter.file_path self = Some (Ok df)
          ∧ "product_title" ∈ columns df
          ∧ "review" ∈ columns df
          ∧ rows df = [].
Proof.
  rewrite convert_cases. split.
  - destruct (fs !! DataConverter.file_path self) as [[df|e]|] eqn:Hfs; [|done|done].
    destruct (index_of "product_title" (columns df)) as [i|] eqn:Hi; [|done].
    destruct (index_of "review" (columns df)) as [j|] eqn:Hj; [|done].
    intros H%comprehension_length. exists df. repeat split; try done.
    + destruct (decide ("product_title" ∈ columns df)) as [|Hn]; [done|].
      apply index_of_None in Hn. congruence.
    + destruct (decide ("review" ∈ columns df)) as [|Hn]; [done|].
      apply index_of_None in Hn. congruence.
    + symmetry in H. by apply nil_length_inv in H.
  - intros (df & Hfs & Hpt & Hrv & Hrows). rewrite Hfs.
    destruct (index_of "product_title" (columns df)) as [i|] eqn:Hi;
      [|by apply index_of_None in Hi].
    destruct (index_of "review" (columns df)) as [j|] eqn:Hj;
      [|by apply index_of_None in Hj].
    by rewrite Hrows.
Qed.


(** X7: a fresh ingestion does not look at what the collection holds: when
    the store accepts both calls, two fresh ingestions of the same file,
    whose titles and reviews are text, leave every document of the file in
    the collection twice. *)
Theorem ingest_twice_duplicates (self : DataIngestor.t) (fs : gmap string (result DataFrame))
    (df : DataFrame) (recs : list (string * string)) :
  fs !! csv_path = Some (Ok df) →
  well_formed_records df = Some recs →
  ∃ self1 vs1 self2 vs2,
    DataIngestor.ingest self fs Accepted false = (self1, Ok vs1)
    ∧ DataIngestor.ingest self1 fs Accepted false = (self2, Ok vs2)
    ∧ collection vs2 =
        collection (DataIngestor.vstore self)
          ++ (document_of <$> recs) ++ (document_of <$> recs).
Proof.
  intros Hfs Hwf. unfold well_formed_records in Hwf.
  destruct (index_of "product_title" (columns df)) as [i|] eqn:Hi; [|done].
  destruct (index_of "review" (columns df)) as [j|] eqn:Hj; [|done].
  cbn in Hwf.
  assert (Hconv : DataConverter.convert {| DataConverter.file_path := csv_path |} fs
                  = Ok (document_of <$> recs)).
  { rewrite (convert_rows {| DataConverter.file_path := csv_path |} fs df i j Hfs Hi Hj).
    by apply comprehension_well_formed. }
  do 4 eexists. rewrite ingest_fresh, Hconv. cbn [add_documents].
  split; [reflexivity|]. rewrite ingest_fresh, Hconv. cbn [add_documents].
  split; [reflexivity|]. cbn [collection with_collection DataIngestor.vstore].
  by rewrite <- app_assoc.
Qed.

(** X8: [DataConverter] can be constructed in exactly two ways: with the
    path as the only positional argument, or as the only keyword argument
    [file_path]; every other call is rejected, and the converter holds the
    path it was given. *)
Theorem converter_init_accepts (a : call_args) (c : DataConverter.t) :
  DataConverter.__init__ a = Ok c
  ↔ a = CallArgs [DataConverter.file_path c] []
    ∨ a = CallArgs [] [("file_path", DataConverter.file_path c)].
Proof.
  destruct c as [p]. cbn [DataConverter.file_path]. split.
  - destruct a as [pos kws]. unfold DataConverter.__init__, bind_args. cbn [positional keywords].
    destruct pos as [|v [|v' pos]]; cbn [bind_positional]; [| |done];
      (destruct kws as [|[k x] [|[k' x'] kws]]; cbn [bind_keywords fmap list_fmap fst app];
       repeat (case_bool_decide; try done);
       repeat match goal with
              | H : _ ∈ [_] |- _ => apply list_elem_of_singleton in H; subst
              | H : _ ∈ [] |- _ => by apply elem_of_nil in H
              | H : _ ∈ _ :: _ |- _ => apply elem_of_cons in H as [?|?]; subst
              | H : ¬ (?k ∈ ?k :: _) |- _ => by destruct H; apply elem_of_cons; left
              end;
       try done; vm_compute; intros [= ->]; auto).
  - intros [->| ->]; reflexivity.
Qed.

Lemma convert_failure_kinds_witness :
  (({[ csv_path := Raise (ParserError "Expected 5 fields in line 3, saw 6") ]}
      : gmap string (result DataFrame)) !! csv_path = None
   ∧ ParserError "Expected 5 fields in line 3, saw 6" = FileNotFoundError csv_path)
  ∨ ({[ csv_path := Raise (ParserError "Expected 5 fields in line 3, saw 6") ]}
       : gmap string (result DataFrame)) !! csv_path
    = Some (Raise (ParserError "Expected 5 fields in line 3, saw 6"))
  ∨ (∃ df k, ({[ csv_path := Raise (ParserError "Expected 5 fields in line 3, saw 6") ]}
                : gmap string (result DataFrame)) !! csv_path = Some (Ok df)
             ∧ ("product_title" ∉ columns df ∨ "review" ∉ columns df)
             ∧ ParserError "Expected 5 fields in line 3, saw 6" = KeyError k)
  ∨ (∃ df j r, ({[ csv_path := Raise (ParserError "Expected 5 fields in line 3, saw 6") ]}
                  : gmap string (result DataFrame)) !! csv_path = Some (Ok df)
               ∧ "product_title" ∈ columns df
               ∧ index_of "review" (columns df) = Some j
               ∧ r ∈ rows df ∧ (∀ s, cell_at j r ≠ Text s)
               ∧ ParserError "Expected 5 fields in line 3, saw 6"
                 = ValidationError "page_content").
Proof.
  apply (convert_failure_kinds {| DataConverter.file_path := csv_path |}
           {[ csv_path := Raise (ParserError "Expected 5 fields in line 3, saw 6") ]}
           (ParserError "Expected 5 fields in line 3, saw 6")).
  reflexivity.
Defined.

Lemma convert_one_document_per_row_witness :
  length [ {| page_content := "Works as described"; metadata := {["product_name" := NaN]} |} ]
    = length (rows reviews_missing_title)
  ∧ ∃ j, index_of "review" (columns reviews_missing_title) = Some j
         ∧ Forall2 (λ r d, cell_at j r = Text (page_content d)) (rows reviews_missing_title)
             [ {| page_content := "Works as described";
                  metadata := {["product_name" := NaN]} |} ].
Proof.
  apply (convert_one_document_per_row {| DataConverter.file_path := csv_path |}
           {[ csv_path := Ok reviews_missing_title ]}).
  - reflexivity.
  - reflexivity.
Defined.

Lemma convert_ignores_other_columns_witness :
  DataConverter.convert {| DataConverter.file_path := csv_path |}
    {[ csv_path := Ok reviews_complete ]}
  = DataConverter.convert {| DataConverter.file_path := "two_columns.csv" |}
      {[ "two_columns.csv" := Ok reviews_two_columns ]}.
Proof.
  apply (convert_ignores_other_columns _ _ _ _ reviews_complete reviews_two_columns 1 4 1 0);
    reflexivity.
Defined.


Lemma ingest_twice_duplicates_witness :
  ∃ self1 vs1 self2 vs2,
    DataIngestor.ingest fresh_ingestor {[ csv_path := Ok reviews_complete ]} Accepted false
      = (self1, Ok vs1)
    ∧ DataIngestor.ingest self1 {[ csv_path := Ok reviews_complete ]} Accepted false
      = (self2, Ok vs2)
    ∧ collection vs2 =
        collection (DataIngestor.vstore fresh_ingestor)
          ++ (document_of <$> [("Phone X", "Great battery life");
                                ("Phone X", "Screen cracked easily")])
          ++ (document_of <$> [("Phone X", "Great battery life");
                                ("Phone X", "Screen cracked easily")]).
Proof.
  apply (ingest_twice_duplicates fresh_ingestor {[ csv_path := Ok reviews_complete ]}
           reviews_complete).
  - reflexivity.
  - reflexivity.
Defined.

(** * Properties of the conversational chain *)

Lemma append_empty_r (s : string) : s +:+ "" = s.
Proof.
  induction s as [|a s IH]; [reflexivity|].
  change (String a s +:+ "") with (String a (s +:+ "")). by rewrite IH.
Qed.

Lemma format_context_prompt (x : gmap string value) msgs q :
  x !! "chat_history" = Some (VMessages msgs) →
  x !! "input" = Some (VStr q) →
  format_messages context_prompt x = Ok (contextualize_messages msgs q).
Proof.
  intros Hh Hi. unfold context_prompt, contextualize_messages.
  cbn [format_messages format]. unfold dict_getitem. rewrite Hh, Hi.
  cbn [mbind result_bind]. rewrite (append_empty_r q). reflexivity.
Qed.

Lemma format_qa_prompt (x : gmap string value) msgs q c :
  x !! "chat_history" = Some (VMessages msgs) →
  x !! "input" = Some (VStr q) →
  x !! "context" = Some (VStr c) →
  format_messages qa_prompt x =
    Ok (SystemMessage (qa_system_text c q) :: msgs ++ [HumanMessage q]).
Proof.
  intros Hh Hi Hc. unfold qa_prompt, qa_system_text.
  cbn [format_messages format]. unfold dict_getitem. rewrite Hh, Hi, Hc.
  cbn [mbind result_bind]. rewrite (append_empty_r q). reflexivity.
Qed.

Section ChainProperties.

Context {W : Type}.
Variable chat_completion : ChatGroq → list Message → W → W * result string.
Variable similarity_search : AstraDBVectorStore → string → Z → W → W * result (list Document).

Local Abbreviation rewrite_stage := (rewrite_stage chat_completion).
Local Abbreviation retrieve_stage := (retrieve_stage similarity_search).
Local Abbreviation generate_stage := (generate_stage chat_completion).
Local Abbreviation pipeline := (pipeline chat_completion similarity_search).
Local Abbreviation issued := (issued chat_completion).
Local Abbreviation step := (step chat_completion similarity_search).
Local Abbreviation run := (run chat_completion similarity_search).

Lemma served_nil (st : State W) : served st (services st) [] = st.
Proof. destruct st. unfold served. cbn. by rewrite app_nil_r. Qed.

Lemma served_served (st : State W) w reqs w' reqs' :
  served (served st w reqs) w' reqs' = served st w' (reqs ++ reqs').
Proof. unfold served. cbn. by rewrite app_assoc. Qed.

Lemma retriever_invoke_stage b query st :
  retriever_invoke similarity_search (as_retriever (vector_store b) 3) query st =
    match retrieve_stage b query (services st) with
    | (w, reqs, r) => (served st w reqs, r)
    end.
Proof.
  unfold retriever_invoke, RAGChainBuilder.retrieve_stage, as_retriever. cbn [vectorstore search_k].
  destruct (similarity_search _ _ _ _) as [w r]. reflexivity.
Qed.

Lemma history_aware_retriever_stages b q msgs st :
  create_history_aware_retriever chat_completion similarity_search (model b)
    (as_retriever (vector_store b) 3) context_prompt (chain_input q msgs) st =
    match rewrite_stage b q msgs (services st) with
    | (w1, reqs1, Raise e) => (served st w1 reqs1, Raise e)
    | (w1, reqs1, Ok query) =>
        match retrieve_stage b query w1 with
        | (w2, reqs2, r) => (served st w2 (reqs1 ++ reqs2), r)
        end
    end.
Proof.
  unfold create_history_aware_retriever, chain_input, RAGChainBuilder.rewrite_stage.
  rewrite lookup_insert_eq. cbn [from_option truthy]. rewrite negb_involutive.
  destruct (bool_decide (msgs = [])).
  - unfold dict_getitem. rewrite lookup_insert_ne by done. rewrite lookup_singleton_eq.
    cbn [mbind result_bind as_str]. unfold mbind, M_bind, lift.
    rewrite retriever_invoke_stage.
    destruct (retrieve_stage b q (services st)) as [[w2 reqs2] r]. reflexivity.
  - rewrite (format_context_prompt _ msgs q);
      [|apply lookup_insert_eq|rewrite lookup_insert_ne by done; apply lookup_singleton_eq].
    unfold mbind, M_bind, lift, llm_invoke.
    destruct (chat_completion _ _ _) as [w1 [query|e]]; [|reflexivity].
    rewrite retriever_invoke_stage. cbn [services].
    destruct (retrieve_stage b query w1) as [[w2 reqs2] r].
    unfold served. cbn. by rewrite <- app_assoc.
Qed.

Lemma stuff_documents_stage b q msgs docs st :
  create_stuff_documents_chain chat_completion (model b) qa_prompt
    (<["context" := VDocuments docs]> (chain_input q msgs)) st =
    match generate_stage b docs q msgs (services st) with
    | (w, reqs, r) => (served st w reqs, r)
    end.
Proof.
  unfold create_stuff_documents_chain, RAGChainBuilder.generate_stage, chain_input.
  unfold dict_getitem at 1. rewrite lookup_insert_eq.
  cbn [mbind result_bind]. unfold mbind, M_bind, lift.
  rewrite (format_qa_prompt _ msgs q (format_docs docs)).
  - unfold llm_invoke. fold (generate_messages docs msgs q).
    destruct (chat_completion _ _ _) as [w r]. reflexivity.
  - rewrite !lookup_insert_ne by done. apply lookup_insert_eq.
  - rewrite !lookup_insert_ne by done. apply lookup_singleton_eq.
  - apply lookup_insert_eq.
Qed.

(** The wrapped chain is the pipeline of the three stages. *)
Lemma rag_chain_pipeline b q msgs st :
  runnable (build_chain chat_completion similarity_search b) (chain_input q msgs) st =
    match pipeline b q msgs (services st) with
    | (w, reqs, Raise e) => (served st w reqs, Raise e)
    | (w, reqs, Ok (docs, a)) => (served st w reqs, Ok (chain_output q msgs docs a))
    end.
Proof.
  unfold build_chain. cbn [runnable].
  unfold create_retrieval_chain, RAGChainBuilder.pipeline.
  unfold mbind at 1. unfold M_bind at 1.
  rewrite history_aware_retriever_stages.
  destruct (rewrite_stage b q msgs (services st)) as [[w1 reqs1] [query|e]]; [|reflexivity].
  destruct (retrieve_stage b query w1) as [[w2 reqs2] [docs|e]]; [|reflexivity].
  unfold mbind, M_bind. rewrite stuff_documents_stage. cbn [services served].
  destruct (generate_stage b docs q msgs w2) as [[w3 reqs3] [a|e]].
  - unfold mret, M_ret, chain_output. by rewrite served_served, <- app_assoc.
  - by rewrite served_served, <- app_assoc.
Qed.

Lemma get_history_cases session_id (st : State W) :
  (∃ l, history_store (self st) !! session_id = Some l
        ∧ _get_history session_id st = (st, Ok l))
  ∨ (history_store (self st) !! session_id = None
     ∧ _get_history session_id st = (created session_id st, Ok (length (heap st)))).
Proof.
  unfold _get_history.
  destruct (history_store (self st) !! session_id) as [l|] eqn:E.
  - left. exists l. split; [reflexivity|].
    rewrite bool_decide_eq_true_2 by (apply elem_of_dom; eauto). by rewrite E.
  - right. split; [reflexivity|].
    rewrite bool_decide_eq_false_2 by (by apply not_elem_of_dom).
    cbn [self history_store]. by rewrite lookup_insert_eq.
Qed.

Lemma history_created session_id (st : State W) s :
  history_store (self st) !! session_id = None →
  history (created session_id st) s = history st s.
Proof.
  intros Hnone. unfold history, created. cbn [self heap history_store].
  destruct (decide (s = session_id)) as [->|Hne].
  - rewrite lookup_insert_eq, Hnone. by rewrite list_lookup_middle.
  - rewrite lookup_insert_ne by done.
    destruct (history_store (self st) !! s) as [l|]; [|reflexivity].
    destruct (decide (l < length (heap st))) as [Hlt|Hge].
    + by rewrite lookup_app_l.
    + rewrite (lookup_ge_None_2 (heap st)) by lia.
      destruct (decide (l = length (heap st))) as [->|Hne'].
      * by rewrite list_lookup_middle.
      * rewrite lookup_ge_None_2; [done|]. rewrite length_app. cbn. lia.
Qed.

Lemma history_served (st : State W) w reqs s : history (served st w reqs) s = history st s.
Proof. reflexivity. Qed.

Lemma history_recorded l ms (st : State W) s :
  history (recorded l ms st) s =
    if bool_decide (history_store (self st) !! s = Some l ∧ l < length (heap st))
    then history st s ++ ms else history st s.
Proof.
  unfold history, recorded. cbn [self heap].
  destruct (history_store (self st) !! s) as [l'|] eqn:E.
  - destruct (decide (l' = l)) as [->|Hne].
    + rewrite list_lookup_alter_eq.
      destruct (heap st !! l) as [h|] eqn:Eh.
      * rewrite bool_decide_eq_true_2; [reflexivity|].
        split; [done|]. by eapply lookup_lt_Some.
      * rewrite bool_decide_eq_false_2; [reflexivity|].
        intros [_ Hlt]. apply lookup_ge_None in Eh. lia.
    + rewrite list_lookup_alter_ne by done.
      rewrite bool_decide_eq_false_2; [done|]. intros [[=] _]. done.
  - rewrite bool_decide_eq_false_2; [done|]. intros [[=] _].
Qed.

Lemma chain_output_answer q msgs docs a :
  chain_output q msgs docs a !! "answer" = Some (VStr a).
Proof. apply lookup_insert_eq. Qed.

Lemma invoke_after_get_history b session_id q (st st1 : State W) l :
  _get_history session_id st = (st1, Ok l) →
  invoke (build_chain chat_completion similarity_search b) {["input" := VStr q]} session_id st =
    match pipeline b q (from_option messages [] (heap st1 !! l)) (services st1) with
    | (w, reqs, Raise e) => (served st1 w reqs, Raise e)
    | (w, reqs, Ok (docs, a)) =>
        (recorded l [HumanMessage q; AIMessage a] (served st1 w reqs),
         Ok (chain_output q (from_option messages [] (heap st1 !! l)) docs a))
    end.
Proof.
  intros Hget. unfold invoke.
  unfold mbind at 1. unfold M_bind at 1.
  change (get_session_history (build_chain chat_completion similarity_search b))
    with (@_get_history W).
  rewrite Hget.
  unfold mbind at 1. unfold M_bind at 1. unfold get_messages at 1.
  unfold mbind at 1. unfold M_bind at 1.
  change (<[history_messages_key (build_chain chat_completion similarity_search b) :=
              VMessages (from_option messages [] (heap st1 !! l))]> {["input" := VStr q]})
    with (chain_input q (from_option messages [] (heap st1 !! l))).
  rewrite rag_chain_pipeline.
  destruct (pipeline b q _ (services st1)) as [[w reqs] [[docs a]|e]]; [|reflexivity].
  unfold _get_input_messages, _get_output_messages, dict_getitem.
  cbn [input_messages_key output_messages_key build_chain].
  rewrite lookup_singleton_eq.
  unfold mbind, M_bind, result_bind, lift, add_messages, mret, M_ret. cbn beta iota.
  rewrite !chain_output_answer. reflexivity.
Qed.

Lemma ask_after_get_history b session_id q (st st1 : State W) l :
  _get_history session_id st = (st1, Ok l) →
  ask chat_completion similarity_search b session_id q st =
    match pipeline b q (from_option messages [] (heap st1 !! l)) (services st1) with
    | (w, reqs, Raise e) => (served st1 w reqs, Raise e)
    | (w, reqs, Ok (docs, a)) =>
        (recorded l [HumanMessage q; AIMessage a] (served st1 w reqs), Ok a)
    end.
Proof.
  intros Hget. unfold ask. unfold mbind at 1. unfold M_bind at 1.
  rewrite (invoke_after_get_history b session_id q st st1 l Hget).
  destruct (pipeline b q _ (services st1)) as [[w reqs] [[docs a]|e]]; [|reflexivity].
  unfold lift, dict_getitem. rewrite chain_output_answer. reflexivity.
Qed.

(** One [ask]: the history is fetched (and created for a new session), the
    pipeline runs on the session's messages, and only an answer is
    recorded. *)
Lemma ask_run b session_id q (st : State W) :
  ∃ st1 l,
    _get_history session_id st = (st1, Ok l)
    ∧ history_store (self st1) !! session_id = Some l
    ∧ (∀ s, history st1 s = history st s)
    ∧ ask chat_completion similarity_search b session_id q st =
        match pipeline b q (history st session_id) (services st) with
        | (w, reqs, Raise e) => (served st1 w reqs, Raise e)
        | (w, reqs, Ok (docs, a)) =>
            (recorded l [HumanMessage q; AIMessage a] (served st1 w reqs), Ok a)
        end.
Proof.
  destruct (get_history_cases session_id st) as [(l & Hl & Hget)|[Hnone Hget]].
  - exists st, l. repeat split; try done.
    rewrite (ask_after_get_history b session_id q st st l Hget).
    unfold history. rewrite Hl. by destruct (heap st !! l).
  - exists (created session_id st), (length (heap st)). repeat split; try done.
    + cbn [created self history_store]. apply lookup_insert_eq.
    + intros s. by apply history_created.
    + rewrite (ask_after_get_history b session_id q st _ _ Hget).
      cbn [created heap services]. rewrite list_lookup_middle by done.
      unfold history. rewrite Hnone. reflexivity.
Qed.

Lemma invoke_run b session_id q (st : State W) :
  ∃ st1 l,
    _get_history session_id st = (st1, Ok l)
    ∧ invoke (build_chain chat_completion similarity_search b)
        {["input" := VStr q]} session_id st =
        match pipeline b q (history st session_id) (services st) with
        | (w, reqs, Raise e) => (served st1 w reqs, Raise e)
        | (w, reqs, Ok (docs, a)) =>
            (recorded l [HumanMessage q; AIMessage a] (served st1 w reqs),
             Ok (chain_output q (history st session_id) docs a))
        end.
Proof.
  destruct (get_history_cases session_id st) as [(l & Hl & Hget)|[Hnone Hget]].
  - exists st, l. split; [done|].
    rewrite (invoke_after_get_history b session_id q st st l Hget).
    unfold history. rewrite Hl. by destruct (heap st !! l).
  - exists (created session_id st), (length (heap st)). split; [done|].
    rewrite (invoke_after_get_history b session_id q st _ _ Hget).
    cbn [created heap services]. rewrite list_lookup_middle by done.
    unfold history. rewrite Hnone. reflexivity.
Qed.

Lemma get_history_requests session_id (st st1 : State W) r :
  _get_history session_id st = (st1, r) →
  requests st1 = requests st ∧ services st1 = services st.
Proof.
  destruct (get_history_cases session_id st) as [(l & _ & Hget)|[_ Hget]];
    rewrite Hget; intros [= <- <-]; done.
Qed.

Lemma pipeline_issued b q msgs w w' reqs r :
  pipeline b q msgs w = (w', reqs, r) → Forall (issued b q msgs) reqs.
Proof.
  unfold RAGChainBuilder.pipeline, RAGChainBuilder.rewrite_stage,
    RAGChainBuilder.retrieve_stage, RAGChainBuilder.generate_stage.
  destruct (bool_decide (msgs = [])) eqn:Hm.
  - apply bool_decide_eq_true in Hm.
    assert (Hsearch : issued b q msgs (SearchRequest q 3)).
    { split; [done|]. by left. }
    assert (Hgen : ∀ docs, issued b q msgs
                     (ChatRequest Generate (model b) (generate_messages docs msgs q))).
    { intros docs. split; [done|]. by exists docs. }
    destruct (similarity_search _ _ _ _) as [w2 [docs|e]].
    + destruct (chat_completion _ _ _) as [w3 [a|e]]; intros [= <- <- <-];
        cbn [app]; auto using Forall_cons, Forall_nil.
    + intros [= <- <- <-]. cbn [app]. auto using Forall_cons, Forall_nil.
  - apply bool_decide_eq_false in Hm.
    assert (Hctx : issued b q msgs
              (ChatRequest Contextualize (model b) (contextualize_messages msgs q))).
    { by repeat split. }
    assert (Hgen : ∀ docs, issued b q msgs
                     (ChatRequest Generate (model b) (generate_messages docs msgs q))).
    { intros docs. split; [done|]. by exists docs. }
    destruct (chat_completion _ _ w) as [w1 [query|e]] eqn:Hrw.
    + assert (Hsearch : issued b q msgs (SearchRequest query 3)).
      { split; [done|]. right. split; [done|]. by exists w, w1. }
      destruct (similarity_search _ _ _ _) as [w2 [docs|e]].
      * destruct (chat_completion _ _ w2) as [w3 [a|e]]; intros [= <- <- <-];
          cbn [app]; auto using Forall_cons, Forall_nil.
      * intros [= <- <- <-]. cbn [app]. auto using Forall_cons, Forall_nil.
    + intros [= <- <- <-]. auto using Forall_cons, Forall_nil.
Qed.

(** The documents of an answered run are what the similarity search
    returned for breadth 3. *)
Lemma pipeline_documents b q msgs w w' reqs docs a :
  pipeline b q msgs w = (w', reqs, Ok (docs, a)) →
  ∃ query w1 w2, similarity_search (vector_store b) query 3 w1 = (w2, Ok docs).
Proof.
  unfold RAGChainBuilder.pipeline, RAGChainBuilder.rewrite_stage,
    RAGChainBuilder.retrieve_stage, RAGChainBuilder.generate_stage.
  destruct (bool_decide (msgs = [])).
  - destruct (similarity_search _ _ _ _) as [w2 [docs'|e]] eqn:Hs; [|discriminate].
    destruct (chat_completion _ _ _) as [w3 [a'|e]]; intros [= <- <- <- <-]. eauto.
  - destruct (chat_completion _ _ w) as [w1 [query|e]]; [|discriminate].
    destruct (similarity_search _ _ _ _) as [w2 [docs'|e]] eqn:Hs; [|discriminate].
    destruct (chat_completion _ _ w2) as [w3 [a'|e]]; intros [= <- <- <- <-]. eauto.
Qed.

Lemma ask_requests b session_id q (st st' : State W) r :
  ask chat_completion similarity_search b session_id q st = (st', r) →
  ∃ reqs, requests st' = requests st ++ reqs
          ∧ Forall (issued b q (history st session_id)) reqs.
Proof.
  destruct (ask_run b session_id q st) as (st1 & l & Hget & _ & _ & ->).
  destruct (get_history_requests _ _ _ _ Hget) as [Hreq _].
  destruct (pipeline b q _ (services st)) as [[w reqs] res] eqn:Hp.
  apply pipeline_issued in Hp.
  destruct res as [[docs a]|e]; intros [= <- <-]; exists reqs; cbn; by rewrite Hreq.
Qed.


Local Abbreviation rewrites_to := (rewrites_to chat_completion).

Lemma pipeline_inv b q msgs (w w' : W) reqs res :
  pipeline b q msgs w = (w', reqs, res) →
  (msgs ≠ []
   ∧ ∃ e, chat_completion (model b) (contextualize_messages msgs q) w = (w', Raise e)
          ∧ reqs = rewrite_requests b q msgs ∧ res = Raise e)
  ∨ ∃ query w1,
      rewrites_to b q msgs w query w1
      ∧ ((∃ e, similarity_search (vector_store b) query 3 w1 = (w', Raise e)
               ∧ reqs = rewrite_requests b q msgs ++ [SearchRequest query 3]
               ∧ res = Raise e)
         ∨ ∃ docs w2 ra,
             similarity_search (vector_store b) query 3 w1 = (w2, Ok docs)
             ∧ chat_completion (model b) (generate_messages docs msgs q) w2 = (w', ra)
             ∧ reqs = rewrite_requests b q msgs
                        ++ [SearchRequest query 3;
                            ChatRequest Generate (model b) (generate_messages docs msgs q)]
             ∧ res = match ra with Ok a => Ok (docs, a) | Raise e => Raise e end).
Proof.
  unfold RAGChainBuilder.pipeline, RAGChainBuilder.rewrite_stage,
    RAGChainBuilder.retrieve_stage, RAGChainBuilder.generate_stage,
    RAGChainBuilder.rewrites_to, rewrite_requests.
  destruct (bool_decide (msgs = [])) eqn:Hm.
  - apply bool_decide_eq_true in Hm.
    destruct (similarity_search _ _ _ _) as [w2 [docs|e]] eqn:Hs.
    + destruct (chat_completion _ _ _) as [w3 ra] eqn:Hg.
      destruct ra as [a|e]; intros [= <- <- <-]; right; exists q, w;
        (split; [by left|]); right; exists docs, w2; eexists; eauto.
    + intros [= <- <- <-]. right. exists q, w. split; [by left|]. left. eauto.
  - apply bool_decide_eq_false in Hm.
    destruct (chat_completion _ _ w) as [w1 [query|e]] eqn:Hrw.
    + destruct (similarity_search _ _ _ _) as [w2 [docs|e]] eqn:Hs.
      * destruct (chat_completion _ _ w2) as [w3 ra] eqn:Hg.
        destruct ra as [a|e]; intros [= <- <- <-]; right; exists query, w1;
          (split; [by right|]); right; exists docs, w2; eexists; eauto.
      * intros [= <- <- <-]. right. exists query, w1. split; [by right|]. left. eauto.
    + intros [= <- <- <-]. left. eauto.
Qed.

Lemma pipeline_generation b q msgs (w w1 w2 w3 : W) query docs ra :
  rewrites_to b q msgs w query w1 →
  similarity_search (vector_store b) query 3 w1 = (w2, Ok docs) →
  chat_completion (model b) (generate_messages docs msgs q) w2 = (w3, ra) →
  pipeline b q msgs w =
    (w3,
     rewrite_requests b q msgs
       ++ [SearchRequest query 3;
           ChatRequest Generate (model b) (generate_messages docs msgs q)],
     match ra with Ok a => Ok (docs, a) | Raise e => Raise e end).
Proof.
  unfold RAGChainBuilder.pipeline, RAGChainBuilder.rewrite_stage,
    RAGChainBuilder.retrieve_stage, RAGChainBuilder.generate_stage, rewrite_requests.
  intros [(-> & -> & ->)|[Hne Hrw]] Hs Hg.
  - cbn. rewrite Hs, Hg. by destruct ra.
  - rewrite bool_decide_eq_false_2 by done. rewrite Hrw, Hs, Hg. by destruct ra.
Qed.

Lemma ask_pipeline b session_id q (st st' : State W) r :
  ask chat_completion similarity_search b session_id q st = (st', r) →
  ∃ reqs res,
    pipeline b q (history st session_id) (services st) = (services st', reqs, res)
    ∧ requests st' = requests st ++ reqs
    ∧ r = match res with Ok (_, a) => Ok a | Raise e => Raise e end.
Proof.
  destruct (ask_run b session_id q st) as (st1 & l & Hget & _ & _ & ->).
  destruct (get_history_requests _ _ _ _ Hget) as [Hreq _].
  destruct (pipeline b q _ (services st)) as [[w reqs] [[docs a]|e]];
    intros [= <- <-]; do 2 eexists; cbn; rewrite Hreq; eauto.
Qed.


(** C6: an [ask] that fails, at whichever stage, leaves the messages of
    every session as they were; an [ask] that answers changes the messages
    of a session, if at all, by appending the user's question and then the
    answer, never one without the other. *)
Theorem ask_records_whole_exchange_or_nothing b session_id q (st st' : State W) r :
  ask chat_completion similarity_search b session_id q st = (st', r) →
  match r with
  | Raise _ => ∀ s, history st' s = history st s
  | Ok a =>
      ∀ s, history st' s = history st s
           ∨ history st' s = history st s ++ [HumanMessage q; AIMessage a]
  end.
Proof.
  destruct (ask_run b session_id q st) as (st1 & l & Hget & _ & Hhist & ->).
  destruct (pipeline b q _ (services st)) as [[w reqs] [[docs a]|e]]; intros [= <- <-].
  - intros s. rewrite history_recorded, history_served, Hhist.
    case_bool_decide; [by right | by left].
  - intros s. by rewrite history_served.
Qed.

(** C7: the retriever of the built chain has breadth 3, a positive number
    fixed when the chain is built: every similarity search of an invocation
    asks for 3 documents, and, the store returning no more documents than it
    is asked for, the documents retrieved for an answered invocation are at
    most 3. *)
Theorem retrieval_breadth_is_three b session_id q (st st' : State W) r :
  (∀ vs query k w w' docs,
     (0 ≤ k)%Z → similarity_search vs query k w = (w', Ok docs) →
     (Z.of_nat (length docs) ≤ k)%Z) →
  invoke (build_chain chat_completion similarity_search b)
    {["input" := VStr q]} session_id st = (st', r) →
  search_k (as_retriever (vector_store b) 3) = 3%Z
  ∧ ∃ reqs,
      requests st' = requests st ++ reqs
      ∧ (∀ query k, SearchRequest query k ∈ reqs → k = 3%Z ∧ (0 < k)%Z)
      ∧ (∀ out, r = Ok out →
           ∃ docs, out !! "context" = Some (VDocuments docs) ∧ length docs ≤ 3).
Proof.
  intros Hstore Hinv. split; [reflexivity|]. revert Hinv.
  destruct (invoke_run b session_id q st) as (st1 & l & Hget & ->).
  destruct (get_history_requests _ _ _ _ Hget) as [Hreq _].
  destruct (pipeline b q _ (services st)) as [[w reqs] res] eqn:Hp.
  pose proof (pipeline_issued _ _ _ _ _ _ _ Hp) as Hall. rewrite Forall_forall in Hall.
  intros H. exists reqs. split; [|split].
  - destruct res as [[docs a]|e]; injection H as <- <-; cbn; by rewrite Hreq.
  - intros query k Hin. destruct (Hall _ Hin) as [-> _]. done.
  - intros out ->. destruct res as [[docs a]|e]; [|discriminate].
    injection H as _ <-. exists docs. split.
    + unfold chain_output. rewrite lookup_insert_ne by done. apply lookup_insert_eq.
    + destruct (pipeline_documents _ _ _ _ _ _ _ _ Hp) as (query & w1 & w2 & Hs).
      apply Hstore in Hs; lia.
Qed.

Lemma wf_initial cfg vs (w : W) : wf (initial cfg vs w).
Proof. split; intros *; cbn; by rewrite lookup_empty. Qed.

Lemma wf_created session_id (st : State W) :
  wf st → history_store (self st) !! session_id = None → wf (created session_id st).
Proof.
  intros [Hlt Hinj] Hnone. split; cbn [created self heap history_store].
  - intros s l. rewrite length_app. cbn [length].
    destruct (decide (s = session_id)) as [->|Hne].
    + rewrite lookup_insert_eq. intros [= <-]. lia.
    + rewrite lookup_insert_ne by done. intros H%Hlt. lia.
  - intros s1 s2 l.
    destruct (decide (s1 = session_id)) as [->|Hne1];
      destruct (decide (s2 = session_id)) as [->|Hne2];
      rewrite ?lookup_insert_eq, ?lookup_insert_ne by done; try done.
    + intros [= <-] H%Hlt. lia.
    + intros H%Hlt [= <-]. lia.
    + apply Hinj.
Qed.

Lemma get_history_wf session_id (st st1 : State W) r :
  wf st → _get_history session_id st = (st1, r) →
  wf st1 ∧ (∀ s, history st1 s = history st s)
  ∧ ∃ l, r = Ok l ∧ history_store (self st1) !! session_id = Some l.
Proof.
  intros Hwf.
  destruct (get_history_cases session_id st) as [(l & Hl & ->)|[Hnone ->]];
    intros [= <- <-].
  - eauto.
  - split; [by apply wf_created|]. split; [intros s; by apply history_created|].
    eexists. split; [done|]. cbn. apply lookup_insert_eq.
Qed.

Lemma wf_served (st : State W) w reqs : wf st → wf (served st w reqs).
Proof. done. Qed.

Lemma wf_recorded l ms (st : State W) : wf st → wf (recorded l ms st).
Proof.
  intros [Hlt Hinj]. split; cbn [recorded self heap]; [|done].
  intros s l' H%Hlt. by rewrite length_alter.
Qed.

(** On a well-formed state an answered [ask] appends the exchange to the
    history of its session and to no other; a failed one appends nothing. *)
Lemma ask_history b session_id q (st st' : State W) r :
  wf st →
  ask chat_completion similarity_search b session_id q st = (st', r) →
  wf st'
  ∧ ∀ s, history st' s =
         history st s ++
           match r with
           | Ok a => if bool_decide (s = session_id) then turns (q, a) else []
           | Raise _ => []
           end.
Proof.
  intros Hwf.
  destruct (ask_run b session_id q st) as (st1 & l & Hget & Hl & Hhist & ->).
  destruct (get_history_wf _ _ _ _ Hwf Hget) as (Hwf1 & _ & _).
  destruct (pipeline b q _ (services st)) as [[w reqs] [[docs a]|e]]; intros [= <- <-].
  - split; [by apply wf_recorded, wf_served|].
    intros s. rewrite history_recorded, history_served, Hhist. cbn [self served heap].
    destruct Hwf1 as [Hlt Hinj].
    destruct (decide (s = session_id)) as [->|Hne].
    + rewrite !bool_decide_eq_true_2; [done..|]. split; [done|]. by eapply Hlt.
    + rewrite (bool_decide_eq_false_2 (s = session_id)) by done.
      rewrite bool_decide_eq_false_2; [by rewrite app_nil_r|].
      intros [Hs _]. apply Hne. by eapply Hinj.
  - split; [by apply wf_served|]. intros s. by rewrite history_served, Hhist, app_nil_r.
Qed.

Lemma run_history b cs (st st' : State W) os :
  wf st → run b cs st = (st', os) →
  wf st'
  ∧ ∀ s, history st' s = history st s ++ concat (turns <$> exchanges s cs os).
Proof.
  revert st os. induction cs as [|c cs IH]; intros st os Hwf; cbn [RAGChainBuilder.run].
  - intros [= <- <-]. split; [done|]. intros s. by rewrite app_nil_r.
  - destruct (step b c st) as [st1 o] eqn:Hstep.
    destruct (run b cs st1) as [st2 os'] eqn:Hrun. intros [= <- <-].
    destruct c as [sid|sid q]; cbn [RAGChainBuilder.step] in Hstep.
    + destruct (_get_history sid st) as [st1' r] eqn:Hget. injection Hstep as <- <-.
      destruct (get_history_wf _ _ _ _ Hwf Hget) as (Hwf1 & Hh & _).
      destruct (IH _ _ Hwf1 Hrun) as [Hwf2 Hh2]. split; [done|].
      intros s. rewrite Hh2, Hh. reflexivity.
    + destruct (ask _ _ b sid q st) as [st1' r] eqn:Hask. injection Hstep as <- <-.
      destruct (ask_history _ _ _ _ _ _ Hwf Hask) as [Hwf1 Hh].
      destruct (IH _ _ Hwf1 Hrun) as [Hwf2 Hh2]. split; [done|].
      intros s. rewrite Hh2, Hh, <- app_assoc. f_equal.
      destruct r as [a|e]; cbn [exchanges]; [|reflexivity].
      rewrite (bool_decide_ext (s = sid) (sid = s)) by done.
      case_bool_decide; reflexivity.
Qed.

Lemma concat_turns_length (exs : list (string * string)) :
  length (concat (turns <$> exs)) = 2 * length exs.
Proof. induction exs as [|ex exs IH]; cbn; [reflexivity|]. rewrite IH. lia. Qed.

Lemma concat_turns_lookup (exs : list (string * string)) i q a :
  exs !! i = Some (q, a) →
  concat (turns <$> exs) !! (2 * i) = Some (HumanMessage q)
  ∧ concat (turns <$> exs) !! (2 * i + 1) = Some (AIMessage a).
Proof.
  revert i. induction exs as [|ex exs IH]; intros i H; [done|].
  destruct i as [|i].
  - injection H as ->. split; reflexivity.
  - replace (2 * S i) with (S (S (2 * i))) by lia.
    replace (S (S (2 * i)) + 1) with (S (S (2 * i + 1))) by lia.
    apply (IH i H).
Qed.

(** C1: starting from a newly constructed builder, after any sequence of
    calls (asks for any sessions, answered or failed, and history lookups),
    the history of a session [S] consists of the exchanges of the answered
    asks for [S], in call order, each as the user's question followed by the
    answer: with [N] answered asks it has exactly [2N] messages, the
    question of the [i]-th at position [2i] and its answer at [2i+1]. *)
Theorem history_after_answered_asks cfg vs (w : W) cs (st' : State W) os session_id :
  run (__init__ cfg vs) cs (initial cfg vs w) = (st', os) →
  history st' session_id = concat (turns <$> exchanges session_id cs os)
  ∧ length (history st' session_id) = 2 * length (exchanges session_id cs os)
  ∧ ∀ i q a,
      exchanges session_id cs os !! i = Some (q, a) →
      history st' session_id !! (2 * i) = Some (HumanMessage q)
      ∧ history st' session_id !! (2 * i + 1) = Some (AIMessage a).
Proof.
  intros Hrun.
  destruct (run_history _ _ _ _ _ (wf_initial cfg vs w) Hrun) as [_ Hh].
  assert (Heq : history st' session_id = concat (turns <$> exchanges session_id cs os)).
  { rewrite Hh. unfold history, initial. cbn. by rewrite lookup_empty. }
  rewrite Heq. split; [reflexivity|]. split; [apply concat_turns_length|].
  intros i q a. apply concat_turns_lookup.
Qed.




(** *** Further properties of the chain *)

(** X9: an answered [ask] consists of at most one rewriting call (none
    when the session has no messages, in which case the question itself is
    the query), one similarity search of breadth 3 for the query, and one
    generation call on the documents that search returned; the answer is
    the model's response to that generation prompt, and these are all the
    requests it makes, in this order. *)
Theorem ask_answered_run b session_id q (st st' : State W) a :
  ask chat_completion similarity_search b session_id q st = (st', Ok a) →
  ∃ query w1 docs w2,
    rewrites_to b q (history st session_id) (services st) query w1
    ∧ similarity_search (vector_store b) query 3 w1 = (w2, Ok docs)
    ∧ chat_completion (model b) (generate_messages docs (history st session_id) q) w2
      = (services st', Ok a)
    ∧ requests st' =
        requests st ++ rewrite_requests b q (history st session_id)
          ++ [SearchRequest query 3;
              ChatRequest Generate (model b)
                (generate_messages docs (history st session_id) q)].
Proof.
  intros (reqs & res & Hp & Hreqs & Hr)%ask_pipeline.
  apply pipeline_inv in Hp
    as [(_ & e & _ & _ & ->)|(query & w1 & Hrw & [(e & _ & _ & ->)|(docs & w2 & ra & Hs & Hg & -> & ->)])];
    try done.
  destruct ra as [a'|e]; [|done]. injection Hr as ->.
  exists query, w1, docs, w2. by rewrite Hreqs.
Qed.

(** X10: a failed [ask] fails because one of its service calls failed, and
    with that call's exception, unchanged: the rewriting call (then no
    search is made: there is no fall-back to the question as asked), the
    similarity search (then the model is not asked to answer), or the
    generation call.  No request follows the one that failed, and the
    plumbing between the stages never raises of its own. *)
Theorem ask_failed_run b session_id q (st st' : State W) e :
  ask chat_completion similarity_search b session_id q st = (st', Raise e) →
  (history st session_id ≠ []
   ∧ chat_completion (model b) (contextualize_messages (history st session_id) q) (services st)
     = (services st', Raise e)
   ∧ requests st' = requests st ++ rewrite_requests b q (history st session_id))
  ∨ (∃ query w1,
       rewrites_to b q (history st session_id) (services st) query w1
       ∧ similarity_search (vector_store b) query 3 w1 = (services st', Raise e)
       ∧ requests st' =
           requests st ++ rewrite_requests b q (history st session_id)
             ++ [SearchRequest query 3])
  ∨ (∃ query w1 docs w2,
       rewrites_to b q (history st session_id) (services st) query w1
       ∧ similarity_search (vector_store b) query 3 w1 = (w2, Ok docs)
       ∧ chat_completion (model b) (generate_messages docs (history st session_id) q) w2
         = (services st', Raise e)
       ∧ requests st' =
           requests st ++ rewrite_requests b q (history st session_id)
             ++ [SearchRequest query 3;
                 ChatRequest Generate (model b)
                   (generate_messages docs (history st session_id) q)]).
Proof.
  intros (reqs & res & Hp & Hreqs & Hr)%ask_pipeline.
  apply pipeline_inv in Hp
    as [(Hne & e' & Hrw & -> & ->)|(query & w1 & Hrw & [(e' & Hs & -> & ->)|(docs & w2 & ra & Hs & Hg & -> & ->)])].
  - injection Hr as ->. left. by rewrite Hreqs.
  - injection Hr as ->. right; left. exists query, w1. by rewrite Hreqs.
  - destruct ra as [a|e']; [done|]. injection Hr as ->.
    right; right. exists query, w1, docs, w2. by rewrite Hreqs.
Qed.

(** X11: once the query is fixed and the search has returned, the outcome
    of [ask] is the outcome of the generation call, for any list of
    retrieved documents: in particular, when the search returns no document
    the model is still asked, with an empty context, and its answer is
    returned. *)
Theorem ask_outcome_is_generation_outcome b session_id q (st : State W)
    query (w1 w2 w3 : W) docs ra :
  rewrites_to b q (history st session_id) (services st) query w1 →
  similarity_search (vector_store b) query 3 w1 = (w2, Ok docs) →
  chat_completion (model b) (generate_messages docs (history st session_id) q) w2 = (w3, ra) →
  ∃ st',
    ask chat_completion similarity_search b session_id q st = (st', ra)
    ∧ services st' = w3.
Proof.
  intros Hrw Hs Hg.
  destruct (ask_run b session_id q st) as (st1 & l & _ & _ & _ & ->).
  rewrite (pipeline_generation _ _ _ _ _ _ _ _ _ _ Hrw Hs Hg).
  destruct ra as [a|e]; eexists; split; reflexivity.
Qed.

(** X12: [_get_history] changes nothing one can observe: the messages of
    every session are as before (so the history it creates for a new session
    is empty), no request is made, the builder's store and model are as
    before, and every session registered before still has the same history
    object. *)
Theorem get_history_is_silent session_id (st st1 : State W) r :
  _get_history session_id st = (st1, r) →
  (∀ s, history st1 s = history st s)
  ∧ (history_store (self st) !! session_id = None → history st1 session_id = [])
  ∧ requests st1 = requests st
  ∧ services st1 = services st
  ∧ vector_store (self st1) = vector_store (self st)
  ∧ model (self st1) = model (self st)
  ∧ history_store (self st) ⊆ history_store (self st1).
Proof.
  destruct (get_history_cases session_id st) as [(l & Hl & ->)|[Hnone ->]];
    intros [= <- <-].
  - repeat split; try done. intros H. congruence.
  - repeat split; try done.
    + intros s. by apply history_created.
    + intros _. rewrite history_created by done. unfold history. by rewrite Hnone.
    + cbn. by apply insert_subseteq.
Qed.

(** Every session has an allocated object of its own, and there are as
    many objects as sessions. *)
Lemma step_objects b c (st st' : State W) o :
  wf st → length (heap st) = size (history_store (self st)) →
  step b c st = (st', o) →
  wf st' ∧ length (heap st') = size (history_store (self st')).
Proof.
  intros Hwf Hcount.
  assert (Hget : ∀ s st1 r, _get_history s st = (st1, r) →
                   wf st1 ∧ length (heap st1) = size (history_store (self st1))).
  { intros s st1 r Hg. split; [by destruct (get_history_wf _ _ _ _ Hwf Hg)|]. revert Hg.
    destruct (get_history_cases s st) as [(l & Hl & ->)|[Hnone ->]]; intros [= <- _];
      [done|].
    cbn. rewrite length_app, map_size_insert_None by done. cbn. lia. }
  destruct c as [s|s q]; cbn [RAGChainBuilder.step].
  - destruct (_get_history s st) as [st1 r] eqn:E. intros [= <- _]. eauto.
  - destruct (ask _ _ b s q st) as [st1 r] eqn:E. intros [= <- _]. revert E.
    destruct (ask_run b s q st) as (st1' & l & Hg & _ & _ & ->).
    destruct (Hget _ _ _ Hg) as [Hwf1 Hc1].
    destruct (pipeline b q _ (services st)) as [[w reqs] [[docs a]|e]]; intros [= <- _].
    + split; [by apply wf_recorded, wf_served|]. cbn. by rewrite length_alter.
    + split; [by apply wf_served|done].
Qed.

Lemma run_objects b cs (st st' : State W) os :
  wf st → length (heap st) = size (history_store (self st)) →
  run b cs st = (st', os) →
  wf st' ∧ length (heap st') = size (history_store (self st')).
Proof.
  revert st os. induction cs as [|c cs IH]; intros st os Hwf Hc; cbn [RAGChainBuilder.run].
  - intros [= <- _]. done.
  - destruct (step b c st) as [st1 o] eqn:Hstep.
    destruct (run b cs st1) as [st2 os'] eqn:Hrun. intros [= <- _].
    destruct (step_objects _ _ _ _ _ Hwf Hc Hstep) as [Hwf1 Hc1]. eauto.
Qed.

(** X13: in every state reached from a newly constructed builder, each
    registered session has an allocated history object, no two sessions
    share an object, and there are exactly as many history objects as
    registered sessions. *)
Theorem sessions_own_their_history b cfg vs (w : W) cs (st' : State W) os :
  run b cs (initial cfg vs w) = (st', os) →
  (∀ s l, history_store (self st') !! s = Some l → l < length (heap st'))
  ∧ (∀ s1 s2 l, history_store (self st') !! s1 = Some l →
                history_store (self st') !! s2 = Some l → s1 = s2)
  ∧ length (heap st') = size (history_store (self st')).
Proof.
  intros Hrun.
  assert (Hcount : length (heap (initial cfg vs w)) = size (history_store (self (initial cfg vs w)))).
  { cbn. by rewrite map_size_empty. }
  destruct (run_objects b cs _ _ _ (wf_initial cfg vs w) Hcount Hrun) as [[H1 H2] H3].
  repeat split; done.
Qed.

(** X14: an invocation of the built chain that returns, returns a dict of
    exactly four entries: the question under [input], the messages the
    session had before the call under [chat_history], the retrieved
    documents under [context] and the answer under [answer]; [ask] returns
    that answer and reaches the same state. *)
Theorem invoke_output b session_id q (st st' : State W) out :
  invoke (build_chain chat_completion similarity_search b)
    {["input" := VStr q]} session_id st = (st', Ok out) →
  ∃ docs a,
    out !! "input" = Some (VStr q)
    ∧ out !! "chat_history" = Some (VMessages (history st session_id))
    ∧ out !! "context" = Some (VDocuments docs)
    ∧ out !! "answer" = Some (VStr a)
    ∧ dom out = {[ "input"; "chat_history"; "context"; "answer" ]}
    ∧ ask chat_completion similarity_search b session_id q st = (st', Ok a).
Proof.
  destruct (invoke_run b session_id q st) as (st1 & l & Hget & ->).
  rewrite (ask_after_get_history b session_id q st st1 l Hget).
  assert (Hmsgs : from_option messages [] (heap st1 !! l) = history st session_id).
  { revert Hget.
    destruct (get_history_cases session_id st) as [(l' & Hl & ->)|[Hnone ->]];
      intros [= <- <-]; unfold history.
    - rewrite Hl. by destruct (heap st !! l').
    - rewrite Hnone. cbn. by rewrite list_lookup_middle. }
  destruct (get_history_requests _ _ _ _ Hget) as [_ Hserv].
  rewrite Hmsgs, Hserv.
  destruct (pipeline b q _ (services st)) as [[w reqs] [[docs a]|e]]; intros [= <- <-].
  exists docs, a. unfold chain_output, chain_input.
  split; [rewrite !lookup_insert_ne by done; apply lookup_singleton_eq|].
  split; [rewrite !lookup_insert_ne by done; apply lookup_insert_eq|].
  split; [rewrite lookup_insert_ne by done; apply lookup_insert_eq|].
  split; [apply lookup_insert_eq|].
  split; [|reflexivity].
  rewrite !dom_insert_L, dom_singleton_L. set_solver.
Qed.

(** X15: both stages talk to the one model of the builder: every chat
    request of an [ask] on the chain of a newly constructed builder, for
    rewriting as for answering, goes to the model named by
    [Config.RAG_MODEL] with temperature 0.5. *)
Theorem ask_uses_builder_model cfg vs session_id q (st st' : State W) r :
  ask chat_completion similarity_search (__init__ cfg vs) session_id q st = (st', r) →
  ∃ reqs,
    requests st' = requests st ++ reqs
    ∧ ∀ stg llm p, ChatRequest stg llm p ∈ reqs →
        llm = model (__init__ cfg vs)
        ∧ model_name llm = RAG_MODEL cfg
        ∧ temperature llm = 1 # 2.
Proof.
  intros (reqs & Hreqs & Hall)%ask_requests. exists reqs. split; [done|].
  rewrite Forall_forall in Hall. intros stg llm p Hin.
  specialize (Hall _ Hin). destruct stg; destruct Hall as [-> _]; done.
Qed.

(** X16: the exchange of an answered [ask] is context for the next one of
    the same session: that next [ask] begins by sending the model the
    rewriting prompt made of the instruction, the session's earlier
    messages, the previous question and its answer, and the new
    question. *)
Theorem follow_up_sees_previous_exchange b session_id q1 q2 (st st1 st2 : State W) a1 r2 :
  wf st →
  ask chat_completion similarity_search b session_id q1 st = (st1, Ok a1) →
  ask chat_completion similarity_search b session_id q2 st1 = (st2, r2) →
  ∃ reqs,
    requests st2 =
      requests st1
        ++ ChatRequest Contextualize (model b)
             (SystemMessage
                "Given the chat history and user question, rewrite it as a standalone question."
              :: (history st session_id ++ [HumanMessage q1; AIMessage a1])
                   ++ [HumanMessage q2])
        :: reqs.
Proof.
  intros Hwf Hask1 Hask2.
  destruct (ask_history _ _ _ _ _ _ Hwf Hask1) as [_ Hh].
  specialize (Hh session_id). rewrite bool_decide_eq_true_2 in Hh by done.
  apply ask_pipeline in Hask2 as (reqs & res & Hp & Hreqs & _).
  assert (Hne : history st1 session_id ≠ []).
  { rewrite Hh. intros H. by apply app_eq_nil in H as [_ ?]. }
  assert (Hrr : rewrite_requests b q2 (history st1 session_id)
                = [ChatRequest Contextualize (model b)
                     (contextualize_messages (history st1 session_id) q2)]).
  { unfold rewrite_requests. by rewrite bool_decide_eq_false_2. }
  rewrite Hreqs. unfold contextualize_messages in Hrr. rewrite Hh in Hrr. cbn [turns fst snd] in Hrr.
  apply pipeline_inv in Hp
    as [(_ & e & _ & -> & _)|(query & w1 & _ & [(e & _ & -> & _)|(docs & w2 & ra & _ & _ & -> & _)])];
    rewrite Hh; cbn [turns fst snd]; rewrite Hrr; eexists; reflexivity.
Qed.

Lemma step_keeps_builder b c (st st' : State W) o :
  step b c st = (st', o) →
  vector_store (self st') = vector_store (self st)
  ∧ model (self st') = model (self st)
  ∧ history_store (self st) ⊆ history_store (self st')
  ∧ length (heap st) ≤ length (heap st')
  ∧ requests st `prefix_of` requests st'.
Proof.
  assert (Hget : ∀ s st1 r, _get_history s st = (st1, r) →
            vector_store (self st1) = vector_store (self st)
            ∧ model (self st1) = model (self st)
            ∧ history_store (self st) ⊆ history_store (self st1)
            ∧ length (heap st) ≤ length (heap st1)
            ∧ requests st1 = requests st).
  { intros s st1 r.
    destruct (get_history_cases s st) as [(l & Hl & ->)|[Hnone ->]]; intros [= <- _].
    - repeat split; done.
    - repeat split; try done; cbn.
      + by apply insert_subseteq.
      + rewrite length_app. lia. }
  destruct c as [s|s q]; cbn [RAGChainBuilder.step].
  - destruct (_get_history s st) as [st1 r] eqn:E. intros [= <- _].
    destruct (Hget _ _ _ E) as (? & ? & ? & ? & ->). repeat split; done.
  - destruct (ask _ _ b s q st) as [st1 r] eqn:E. intros [= <- _]. revert E.
    destruct (ask_run b s q st) as (st1' & l & Hg & _ & _ & ->).
    destruct (Hget _ _ _ Hg) as (? & ? & ? & ? & Hreq).
    destruct (pipeline b q _ (services st)) as [[w reqs] [[docs a]|e]]; intros [= <- _];
      cbn; rewrite ?length_alter, Hreq; repeat split; try done; by apply prefix_app_r.
Qed.

(** X17: no call on the builder or its chain changes the builder's store or
    model, and none forgets a session: after any sequence of calls every
    session registered before is still registered with the same history
    object, the history objects are at least as many, and the requests made
    before are a prefix of the requests made. *)
Theorem run_keeps_builder b cs (st st' : State W) os :
  run b cs st = (st', os) →
  vector_store (self st') = vector_store (self st)
  ∧ model (self st') = model (self st)
  ∧ history_store (self st) ⊆ history_store (self st')
  ∧ length (heap st) ≤ length (heap st')
  ∧ requests st `prefix_of` requests st'.
Proof.
  revert st os. induction cs as [|c cs IH]; intros st os; cbn [RAGChainBuilder.run].
  - intros [= <- _]. repeat split; done.
  - destruct (step b c st) as [st1 o] eqn:Hstep.
    destruct (run b cs st1) as [st2 os'] eqn:Hrun. intros [= <- _].
    destruct (step_keeps_builder _ _ _ _ _ Hstep) as (Hv & Hm & Hs & Hl & Hr).
    destruct (IH _ _ Hrun) as (Hv' & Hm' & Hs' & Hl' & Hr').
    repeat split; [congruence|congruence|by etrans|lia|by etrans].
Qed.

Lemma format_docs_contents (ds1 ds2 : list Document) :
  page_content <$> ds1 = page_content <$> ds2 → format_docs ds1 = format_docs ds2.
Proof.
  revert ds2. induction ds1 as [|d1 ds1 IH]; intros [|d2 ds2]; try done.
  rewrite !fmap_cons. intros [= Hd Hrest].
  destruct ds1 as [|d1' ds1], ds2 as [|d2' ds2]; try done.
  change (format_docs (d1 :: d1' :: ds1))
    with (page_content d1 +:+ nl +:+ nl +:+ format_docs (d1' :: ds1)).
  change (format_docs (d2 :: d2' :: ds2))
    with (page_content d2 +:+ nl +:+ nl +:+ format_docs (d2' :: ds2)).
  by rewrite Hd, (IH _ Hrest).
Qed.

(** X18: the answering stage shows the model the content of the retrieved
    documents and nothing else of them: two lists of documents with the same
    contents, whatever their metadata (the product names), lead to the same
    prompt, the same request and the same outcome. *)
Theorem answering_ignores_metadata llm prompt (x : gmap string value)
    (docs1 docs2 : list Document) (st : State W) :
  page_content <$> docs1 = page_content <$> docs2 →
  create_stuff_documents_chain chat_completion llm prompt
    (<["context" := VDocuments docs1]> x) st
  = create_stuff_documents_chain chat_completion llm prompt
      (<["context" := VDocuments docs2]> x) st.
Proof.
  intros Hc. unfold create_stuff_documents_chain, dict_getitem.
  rewrite !lookup_insert_eq. cbn [mbind result_bind]. unfold mbind, M_bind, lift.
  by rewrite !insert_insert_eq, (format_docs_contents _ _ Hc).
Qed.

(** X19: every [ask], answered or failed, leaves its session registered:
    the session has a history object afterwards, the one it had before if
    it had one, and a later lookup creates nothing. *)
Theorem ask_registers_session b session_id q (st st' : State W) r :
  ask chat_completion similarity_search b session_id q st = (st', r) →
  ∃ l,
    history_store (self st') !! session_id = Some l
    ∧ (∀ l0, history_store (self st) !! session_id = Some l0 → l = l0)
    ∧ _get_history session_id st' = (st', Ok l).
Proof.
  destruct (ask_run b session_id q st) as (st1 & l & Hget & Hl & _ & ->).
  intros Hask.
  assert (Hself : self st' = self st1).
  { destruct (pipeline b q _ (services st)) as [[w reqs] [[docs a]|e]];
      injection Hask as <- _; done. }
  exists l. rewrite Hself. split; [done|]. split.
  - intros l0 Hl0. revert Hget.
    destruct (get_history_cases session_id st) as [(l' & Hl' & ->)|[Hnone ->]];
      intros [= <- <-]; congruence.
  - destruct (get_history_cases session_id st') as [(l' & Hl' & ->)|[Hnone _]];
      rewrite Hself in *; congruence.
Qed.

End ChainProperties.

(** ** The model's temperature *)



(** ** Runs with the stand-in services *)

Lemma prefix_search_le vs query k w w' docs :
  (0 ≤ k)%Z → prefix_search vs query k w = (w', Ok docs) → (Z.of_nat (length docs) ≤ k)%Z.
Proof. intros Hk [= _ <-]. rewrite length_take. lia. Qed.


Lemma ask_records_whole_exchange_or_nothing_witness :
  sample_ask "s1" "Is it waterproof?" sample_state_2
    = (sample_state_3, Raise (ServiceError "chat model unavailable"))
  ∧ ∀ s, history sample_state_3 s = history sample_state_2 s.
Proof.
  split; [vm_compute; reflexivity|].
  exact (ask_records_whole_exchange_or_nothing scripted_chat prefix_search sample_builder
           "s1" "Is it waterproof?" sample_state_2 sample_state_3
           (Raise (ServiceError "chat model unavailable")) eq_refl).
Defined.

Lemma retrieval_breadth_is_three_witness :
  search_k (as_retriever (vector_store sample_builder) 3) = 3%Z
  ∧ ∃ reqs,
      requests (invoke (build_chain scripted_chat prefix_search sample_builder)
                  {["input" := VStr "Which phone?"]} "s9" sample_state_0).1
        = requests sample_state_0 ++ reqs
      ∧ (∀ query k, SearchRequest query k ∈ reqs → k = 3%Z ∧ (0 < k)%Z)
      ∧ (∀ out,
           (invoke (build_chain scripted_chat prefix_search sample_builder)
              {["input" := VStr "Which phone?"]} "s9" sample_state_0).2 = Ok out →
           ∃ docs, out !! "context" = Some (VDocuments docs) ∧ length docs ≤ 3).
Proof.
  apply (retrieval_breadth_is_three scripted_chat prefix_search sample_builder
           "s9" "Which phone?" sample_state_0).
  - exact prefix_search_le.
  - vm_compute. reflexivity.
Defined.

Lemma history_after_answered_asks_witness :
  history sample_run.1 "s1" = concat (turns <$> exchanges "s1" sample_calls sample_run.2)
  ∧ length (history sample_run.1 "s1") = 2 * length (exchanges "s1" sample_calls sample_run.2)
  ∧ ∀ i q a,
      exchanges "s1" sample_calls sample_run.2 !! i = Some (q, a) →
      history sample_run.1 "s1" !! (2 * i) = Some (HumanMessage q)
      ∧ history sample_run.1 "s1" !! (2 * i + 1) = Some (AIMessage a).
Proof.
  apply (history_after_answered_asks scripted_chat prefix_search sample_config sample_store
           sample_script sample_calls).
  vm_compute. reflexivity.
Defined.


Example sample_run_outcomes :
  sample_run.2 =
    [ Answer (Ok "People praise the battery life.");
      Handle (Ok 1);
      Answer (Ok "Some report that the screen cracks easily.");
      Handle (Ok 0);
      Answer (Raise (ServiceError "chat model unavailable")) ].
Proof. vm_compute. reflexivity. Qed.

Example sample_run_history :
  history sample_run.1 "s1" =
    [ HumanMessage "What do people say about the battery?";
      AIMessage "People praise the battery life.";
      HumanMessage "And the screen?";
      AIMessage "Some report that the screen cracks easily." ]
  ∧ history sample_run.1 "s2" = [].
Proof. split; vm_compute; reflexivity. Qed.

Example sample_second_ask_search :
  SearchRequest "What do people say about the screen of Phone X?" 3
    ∈ drop (length (requests sample_state_1)) (requests sample_state_2).
Proof. vm_compute. apply elem_of_cons; right. apply elem_of_cons; left. reflexivity. Qed.

(** ** Further runs with the stand-in services *)

Lemma ask_answered_run_witness :
  ∃ query w1 docs w2,
    rewrites_to scripted_chat sample_builder "And the screen?"
      (history sample_state_1 "s1") (services sample_state_1) query w1
    ∧ prefix_search (vector_store sample_builder) query 3 w1 = (w2, Ok docs)
    ∧ scripted_chat (model sample_builder)
        (generate_messages docs (history sample_state_1 "s1") "And the screen?") w2
      = (services sample_state_2, Ok "Some report that the screen cracks easily.")
    ∧ requests sample_state_2 =
        requests sample_state_1
          ++ rewrite_requests sample_builder "And the screen?" (history sample_state_1 "s1")
          ++ [SearchRequest query 3;
              ChatRequest Generate (model sample_builder)
                (generate_messages docs (history sample_state_1 "s1") "And the screen?")].
Proof.
  apply (ask_answered_run scripted_chat prefix_search sample_builder "s1" "And the screen?"
           sample_state_1 sample_state_2).
  vm_compute. reflexivity.
Defined.

Lemma ask_failed_run_witness :
  (history sample_state_2 "s1" ≠ []
   ∧ scripted_chat (model sample_builder)
       (contextualize_messages (history sample_state_2 "s1") "Is it waterproof?")
       (services sample_state_2)
     = (services sample_state_3, Raise (ServiceError "chat model unavailable"))
   ∧ requests sample_state_3 =
       requests sample_state_2
         ++ rewrite_requests sample_builder "Is it waterproof?" (history sample_state_2 "s1"))
  ∨ (∃ query w1,
       rewrites_to scripted_chat sample_builder "Is it waterproof?"
         (history sample_state_2 "s1") (services sample_state_2) query w1
       ∧ prefix_search (vector_store sample_builder) query 3 w1
         = (services sample_state_3, Raise (ServiceError "chat model unavailable"))
       ∧ requests sample_state_3 =
           requests sample_state_2
             ++ rewrite_requests sample_builder "Is it waterproof?"
                  (history sample_state_2 "s1")
             ++ [SearchRequest query 3])
  ∨ (∃ query w1 docs w2,
       rewrites_to scripted_chat sample_builder "Is it waterproof?"
         (history sample_state_2 "s1") (services sample_state_2) query w1
       ∧ prefix_search (vector_store sample_builder) query 3 w1 = (w2, Ok docs)
       ∧ scripted_chat (model sample_builder)
           (generate_messages docs (history sample_state_2 "s1") "Is it waterproof?") w2
         = (services sample_state_3, Raise (ServiceError "chat model unavailable"))
       ∧ requests sample_state_3 =
           requests sample_state_2
             ++ rewrite_requests sample_builder "Is it waterproof?"
                  (history sample_state_2 "s1")
             ++ [SearchRequest query 3;
                 ChatRequest Generate (model sample_builder)
                   (generate_messages docs (history sample_state_2 "s1")
                      "Is it waterproof?")]).
Proof.
  apply (ask_failed_run scripted_chat prefix_search sample_builder "s1" "Is it waterproof?"
           sample_state_2 sample_state_3).
  vm_compute. reflexivity.
Defined.

Lemma ask_outcome_is_generation_outcome_witness :
  ∃ st',
    ask scripted_chat prefix_search empty_store_builder "s1" "Any tablets?" empty_store_state
      = (st', Ok "I have no reviews about that.")
    ∧ services st' = [].
Proof.
  apply (ask_outcome_is_generation_outcome scripted_chat prefix_search empty_store_builder
           "s1" "Any tablets?" empty_store_state "Any tablets?"
           [Ok "I have no reviews about that."] [Ok "I have no reviews about that."] [] []).
  - left. repeat split; reflexivity.
  - reflexivity.
  - reflexivity.
Defined.

Lemma get_history_is_silent_witness :
  (∀ s, history (_get_history "s7" sample_state_2).1 s = history sample_state_2 s)
  ∧ (history_store (self sample_state_2) !! "s7" = None →
     history (_get_history "s7" sample_state_2).1 "s7" = [])
  ∧ requests (_get_history "s7" sample_state_2).1 = requests sample_state_2
  ∧ services (_get_history "s7" sample_state_2).1 = services sample_state_2
  ∧ vector_store (self (_get_history "s7" sample_state_2).1) = vector_store (self sample_state_2)
  ∧ model (self (_get_history "s7" sample_state_2).1) = model (self sample_state_2)
  ∧ history_store (self sample_state_2) ⊆ history_store (self (_get_history "s7" sample_state_2).1).
Proof.
  apply (get_history_is_silent "s7" sample_state_2 _ (_get_history "s7" sample_state_2).2).
  vm_compute. reflexivity.
Defined.

Lemma sessions_own_their_history_witness :
  (∀ s l, history_store (self sample_run.1) !! s = Some l → l < length (heap sample_run.1))
  ∧ (∀ s1 s2 l, history_store (self sample_run.1) !! s1 = Some l →
                history_store (self sample_run.1) !! s2 = Some l → s1 = s2)
  ∧ length (heap sample_run.1) = size (history_store (self sample_run.1)).
Proof.
  apply (sessions_own_their_history scripted_chat prefix_search sample_builder sample_config
           sample_store sample_script sample_calls sample_run.1 sample_run.2).
  vm_compute. reflexivity.
Defined.

Lemma invoke_output_witness :
  ∃ docs a,
    sample_output !! "input" = Some (VStr "Which phone?")
    ∧ sample_output !! "chat_history" = Some (VMessages (history sample_state_0 "s9"))
    ∧ sample_output !! "context" = Some (VDocuments docs)
    ∧ sample_output !! "answer" = Some (VStr a)
    ∧ dom sample_output = {[ "input"; "chat_history"; "context"; "answer" ]}
    ∧ ask scripted_chat prefix_search sample_builder "s9" "Which phone?" sample_state_0
      = (sample_invocation.1, Ok a).
Proof.
  apply (invoke_output scripted_chat prefix_search sample_builder "s9" "Which phone?"
           sample_state_0).
  vm_compute. reflexivity.
Defined.

Lemma ask_uses_builder_model_witness :
  ∃ reqs,
    requests sample_state_2 = requests sample_state_1 ++ reqs
    ∧ ∀ stg llm p, ChatRequest stg llm p ∈ reqs →
        llm = model (__init__ sample_config sample_store)
        ∧ model_name llm = RAG_MODEL sample_config
        ∧ temperature llm = 1 # 2.
Proof.
  apply (ask_uses_builder_model scripted_chat prefix_search sample_config sample_store
           "s1" "And the screen?" sample_state_1 sample_state_2
           (Ok "Some report that the screen cracks easily.")).
  vm_compute. reflexivity.
Defined.

Lemma follow_up_sees_previous_exchange_witness :
  ∃ reqs,
    requests sample_state_2 =
      requests sample_state_1
        ++ ChatRequest Contextualize (model sample_builder)
             (SystemMessage
                "Given the chat history and user question, rewrite it as a standalone question."
              :: (history sample_state_0 "s1"
                    ++ [HumanMessage "What do people say about the battery?";
                        AIMessage "People praise the battery life."])
                   ++ [HumanMessage "And the screen?"])
        :: reqs.
Proof.
  apply (follow_up_sees_previous_exchange scripted_chat prefix_search sample_builder "s1"
           "What do people say about the battery?" "And the screen?"
           sample_state_0 sample_state_1 sample_state_2
           "People praise the battery life."
           (Ok "Some report that the screen cracks easily.")).
  - exact (wf_initial sample_config sample_store sample_script).
  - vm_compute. reflexivity.
  - vm_compute. reflexivity.
Defined.

Lemma run_keeps_builder_witness :
  vector_store (self sample_run.1) = vector_store (self sample_state_0)
  ∧ model (self sample_run.1) = model (self sample_state_0)
  ∧ history_store (self sample_state_0) ⊆ history_store (self sample_run.1)
  ∧ length (heap sample_state_0) ≤ length (heap sample_run.1)
  ∧ requests sample_state_0 `prefix_of` requests sample_run.1.
Proof.
  apply (run_keeps_builder scripted_chat prefix_search sample_builder sample_calls
           sample_state_0 sample_run.1 sample_run.2).
  vm_compute. reflexivity.
Defined.

Lemma answering_ignores_metadata_witness :
  create_stuff_documents_chain scripted_chat (model sample_builder) qa_prompt
    (<["context" := VDocuments (take 2 (collection sample_store))]>
       (chain_input "Which phone?" [])) sample_state_0
  = create_stuff_documents_chain scripted_chat (model sample_builder) qa_prompt
      (<["context" := VDocuments retitled_documents]>
         (chain_input "Which phone?" [])) sample_state_0.
Proof.
  apply (answering_ignores_metadata scripted_chat (model sample_builder) qa_prompt
           (chain_input "Which phone?" []) (take 2 (collection sample_store))
           retitled_documents sample_state_0).
  reflexivity.
Defined.

Lemma ask_registers_session_witness :
  ∃ l,
    history_store (self sample_state_3) !! "s1" = Some l
    ∧ (∀ l0, history_store (self sample_state_2) !! "s1" = Some l0 → l = l0)
    ∧ _get_history "s1" sample_state_3 = (sample_state_3, Ok l).
Proof.
  apply (ask_registers_session scripted_chat prefix_search sample_builder "s1"
           "Is it waterproof?" sample_state_2 sample_state_3
           (Raise (ServiceError "chat model unavailable"))).
  vm_compute. reflexivity.
Defined.
